(** * Campus canteen backend: order lifecycle and sequential order codes

    A shallow embedding of the order engine of [server.js]: the two storage
    helpers over the data directory ([saveToJSON], [readFromJSON]), the
    mirror write ([saveToDynamoDB]), the daily order-code allocator
    ([generateOrderID]) and the four order routes (create, list, set status,
    cancel).

    JavaScript's [async] functions are modelled in a state-and-exception
    monad over a [World] (data directory, mirror table, console, mail
    outbox).  What a handler cannot decide by itself (the clock, the uuid
    and random generators, which I/O calls fail) is read from an [Env]. *)

From stdpp Require Import base option list gmap strings pretty.
From Stdlib Require Import ZArith Lia.

Open Scope Z_scope.
Open Scope string_scope.
Open Scope list_scope.

(** ** Data model *)

(** One line item of an order, as the analytics routes read it
    ([item.id], [item.quantity]). *)
Record Item := {
  i_id : string;
  i_quantity : Z;
  i_price : Z
}.

(** An element of [orders.json]: the object literal built by
    [POST /api/orders], plus [updatedAt], which only the status and cancel
    routes add.  [o_totalAmount] is a whole amount; where amounts are added
    up, they are added as doubles ([js_add]). *)
Record Order := {
  o_id : string;
  o_orderId : string;
  o_userId : string;
  o_adminId : string;
  o_items : list Item;
  o_totalAmount : Z;
  o_paymentMethod : string;
  o_orderType : string;
  o_scheduledTime : option string;   (* [None] is JSON [null] *)
  o_status : string;
  o_otp : string;
  o_createdAt : string;
  o_pickup : string;
  o_updatedAt : option string        (* [None]: the key is absent *)
}.

(** An element of [users.json], restricted to the fields the order routes
    read.  [u_name]/[u_phone] are [None] when the key is absent;
    [u_notifications] is the truthiness of [user.preferences?.notifications]. *)
Record User := {
  u_id : string;
  u_name : option string;
  u_phone : option string;
  u_email : string;
  u_notifications : bool
}.

(** The content of [order-counter.json].  [c_counter] is a JavaScript number
    that the allocator only ever sets to 1 or increments by 1; it is kept as
    an integer, exact as long as it stays a safe integer (see [js_safe]). *)
Record DailyCounter := {
  c_date : string;
  c_counter : Z
}.

(** Integers on which [+= 1] is exact in double precision. *)
Definition js_safe (n : Z) : Prop := - 2 ^ 53 < n < 2 ^ 53.

(** The double nearest to an integer, ties going to the even significand: a
    double holds 53 significant bits, so an integer of more bits is a multiple
    of [2 ^ k], [k] being the number of bits in excess.  (Integers whose
    magnitude reaches 2^1024, where JavaScript answers [Infinity], are outside
    this integer model.) *)
Definition round_double (z : Z) : Z :=
  let a := Z.abs z in
  let k := (Z.log2 a - 52)%Z in
  if (k <=? 0)%Z then z
  else
    let q := (a / 2 ^ k)%Z in
    let r := (a mod 2 ^ k)%Z in
    let half := (2 ^ (k - 1))%Z in
    let q' := if (r <? half)%Z || ((r =? half)%Z && Z.even q) then q else (q + 1)%Z in
    (Z.sgn z * (q' * 2 ^ k))%Z.

(** [a + b] on integer-valued doubles: the exact sum, rounded. *)
Definition js_add (a b : Z) : Z := round_double (a + b).

(** [n += 1] on an integer-valued double. *)
Definition js_incr (n : Z) : Z := js_add n 1.

(** A parsed JSON document of the data directory.  [VEmptyObject] is the
    literal [{}] and [VEmptyArray] the literal [[]] of [readFromJSON]'s
    [catch] branch. *)
Inductive JsValue :=
| VOrders (l : list Order)
| VUsers (l : list User)
| VCounter (c : DailyCounter)
| VEmptyArray
| VEmptyObject.

(** A line written to the console. *)
Inductive LogLine :=
| ErrSaving (filename : string)      (* console.error(`Error saving to ${filename}:`, ..) *)
| ErrReading (filename : string)     (* console.error(`Error reading from ${filename}:`, ..) *)
| ErrDynamo (tableName : string)     (* console.error(`Error saving to DynamoDB ${tableName}:`, ..) *)
| ErrBrevo                           (* console.error('Brevo email error:', ..) *)
| EmailSent (to : string).           (* console.log(`Brevo email sent to ${to}`, ..) *)

(** One call of [dynamoDB.put]; [p_ok] tells whether the promise resolved. *)
Record Put := {
  p_table : string;
  p_item : Order;
  p_ok : bool
}.

(** A mail handed to the mail service: recipient, subject, and the pickup
    code when the body shows one. *)
Record Email := {
  m_to : string;
  m_subject : string;
  m_otp : option string
}.

(** The mutable world of the serving process.  [files] maps a file name of
    the data directory to its parsed content; a file that cannot be read or
    parsed has no entry. *)
Record World := {
  files : gmap string JsValue;
  dynamo : list Put;
  console : list LogLine;
  outbox : list Email
}.

(** What one request observes of its environment. *)
Record Env := {
  today : string;                    (* new Date().toDateString() *)
  nowISO : string;                   (* new Date().toISOString() *)
  uuid : string;                     (* uuidv4() *)
  otp_draw : Z;                      (* Math.floor(1000 + Math.random() * 9000) *)
  ORDERS_TABLE : string;             (* process.env.ORDERS_TABLE *)
  write_fails : string → bool;       (* fs.writeFile rejects for this file *)
  dynamo_fails : bool;               (* dynamoDB.put(..).promise() rejects *)
  brevo_fails : bool;                (* brevo.sendTransacEmail rejects *)
  unicode_upper : string → string    (* s => s.toUpperCase(), by the runtime's
                                        Unicode tables, for a string that is
                                        not plain ASCII *)
}.

Definition with_files (fs : gmap string JsValue) (w : World) : World :=
  {| files := fs; dynamo := dynamo w; console := console w; outbox := outbox w |}.

Definition with_dynamo_fails (b : bool) (e : Env) : Env :=
  {| today := today e; nowISO := nowISO e; uuid := uuid e;
     otp_draw := otp_draw e; ORDERS_TABLE := ORDERS_TABLE e;
     write_fails := write_fails e; dynamo_fails := b;
     brevo_fails := brevo_fails e; unicode_upper := unicode_upper e |}.

(** ** The monad of [async] functions *)

Inductive Outcome (A : Type) : Type :=
| Returns (a : A)
| Throws (msg : string).
Arguments Returns {A} a.
Arguments Throws {A} msg.

Definition Js (A : Type) : Type := World → Outcome A * World.

Definition js_ret {A} (a : A) : Js A := λ w, (Returns a, w).

Definition js_bind {A B} (m : Js A) (k : A → Js B) : Js B :=
  λ w, match m w with
       | (Returns a, w') => k a w'
       | (Throws msg, w') => (Throws msg, w')
       end.

Definition throw {A} (msg : string) : Js A := λ w, (Throws msg, w).

Notation "'let!' x ':=' m 'in' k" := (js_bind m (λ x, k))
  (at level 10, x name, m at level 100, k at level 200,
   format "'[v' 'let!'  x  ':='  m  'in' '/' k ']'").
Notation "'do!' m 'in' k" := (js_bind m (λ _, k))
  (at level 10, m at level 100, k at level 200,
   format "'[v' 'do!'  m  'in' '/' k ']'").

Definition console_log (l : LogLine) : Js unit :=
  λ w, (Returns tt,
        {| files := files w; dynamo := dynamo w;
           console := console w ++ [l]; outbox := outbox w |}).

(** ** Dual storage helpers *)

(** [saveToJSON]: write the whole document; a rejected write is caught and
    logged, and the function returns normally either way. *)
Definition saveToJSON (e : Env) (filename : string) (data : JsValue) : Js unit :=
  if write_fails e filename
  then console_log (ErrSaving filename)
  else λ w, (Returns tt, with_files (<[filename := data]> (files w)) w).

(** [Array.isArray(filename)]: the argument is the file name, a string. *)
Definition Array_isArray (filename : string) : bool := false.

(** [readFromJSON]: the parsed document, or, when reading or parsing throws,
    a log line and [Array.isArray(filename) ? [] : {}]. *)
Definition readFromJSON (filename : string) : Js JsValue :=
  λ w, match files w !! filename with
       | Some data => (Returns data, w)
       | None =>
           js_bind (console_log (ErrReading filename))
             (λ _, js_ret (if Array_isArray filename then VEmptyArray else VEmptyObject)) w
       end.

(** [saveToDynamoDB]: one [put]; a rejection is caught and logged. *)
Definition saveToDynamoDB (e : Env) (tableName : string) (item : Order) : Js unit :=
  λ w,
    let w' := {| files := files w;
                 dynamo := dynamo w ++ [{| p_table := tableName; p_item := item;
                                           p_ok := negb (dynamo_fails e) |}];
                 console := console w; outbox := outbox w |} in
    if dynamo_fails e then console_log (ErrDynamo tableName) w' else (Returns tt, w').

(** [sendEmail]: hand the mail over; a rejection is caught and logged. *)
Definition sendEmail (e : Env) (to subject : string) (otp : option string) : Js unit :=
  if brevo_fails e
  then console_log ErrBrevo
  else λ w,
    console_log (EmailSent to)
      {| files := files w; dynamo := dynamo w; console := console w;
         outbox := outbox w ++ [{| m_to := to; m_subject := subject; m_otp := otp |}] |}.

(** ** Sequential order codes *)

(** The template literal [`CC-#${n}`]. *)
Definition order_code (n : Z) : string := "CC-#" +:+ pretty n.

(** The synchronous middle of [generateOrderID]: the [date] and [counter]
    properties of the freshly read value once the [if] has run.  On a value
    without a [date] (the [{}] of a failed read, or an array), [counter.date]
    is [undefined], which differs from every date string, and both properties
    are set on the value. *)
Definition bump (today : string) (counter : JsValue) : DailyCounter :=
  match counter with
  | VCounter c =>
      if bool_decide (c_date c ≠ today)
      then {| c_date := today; c_counter := 1 |}
      else {| c_date := c_date c; c_counter := js_incr (c_counter c) |}
  | _ => {| c_date := today; c_counter := 1 |}
  end.

(** What [JSON.stringify(counter)] writes for the value read, its [date] and
    [counter] properties being [c]: an object is written with its two
    properties; an array is written as its elements, the properties set on it
    being dropped. *)
Definition stringify_counter (counter : JsValue) (c : DailyCounter) : JsValue :=
  match counter with
  | VCounter _ | VEmptyObject => VCounter c
  | VOrders l => VOrders l
  | VUsers l => VUsers l
  | VEmptyArray => VEmptyArray
  end.

(** An object, as opposed to an array: what the counter file holds when the
    allocator wrote it, and what a failed read gives. *)
Definition counter_object (v : JsValue) : Prop :=
  match v with
  | VCounter _ | VEmptyObject => True
  | _ => False
  end.

Definition generateOrderID (e : Env) : Js string :=
  let! counter := readFromJSON "order-counter.json" in
  let bumped := bump (today e) counter in
  do! saveToJSON e "order-counter.json" (stringify_counter counter bumped) in
  js_ret (order_code (c_counter bumped)).

(** [generate4DigitOTP]: [Math.floor(1000 + Math.random() * 9000).toString()].
    The floating-point draw is the environment's; the function prints it. *)
Definition generate4DigitOTP (e : Env) : string := pretty (otp_draw e).

(** ** Order routes *)

(** An HTTP response: the status code and the JSON body. *)
Inductive Body :=
| BOrder (order : Order)                  (* { success: true, order } *)
| BError (error : string).                (* { error } *)

(** An order of the listing, spread and extended with the owner's display
    fields. *)
Record ListedOrder := {
  l_order : Order;
  l_userName : string;
  l_userPhone : string
}.

Inductive Response :=
| Json (code : Z) (body : Body)
| JsonOrders (orders : list ListedOrder). (* res.json(orders.reverse()), code 200 *)

Definition status_code (r : Response) : Z :=
  match r with
  | Json code _ => code
  | JsonOrders _ => 200
  end.

(** The [try { .. } catch (error) { res.status(500).json({ error: error.message }) }]
    around every handler. *)
Definition route (handler : Js Response) (w : World) : Response * World :=
  match handler w with
  | (Returns r, w') => (r, w')
  | (Throws msg, w') => (Json 500 (BError msg), w')
  end.

(** Calling an array method on a value read from the data directory: the
    elements when the value is an array, a [TypeError] otherwise. *)
Definition orders_array (method : string) (v : JsValue) : Js (list Order) :=
  match v with
  | VOrders l => js_ret l
  | VEmptyArray => js_ret []
  | _ => throw ("orders." +:+ method +:+ " is not a function")
  end.

Definition users_array (method : string) (v : JsValue) : Js (list User) :=
  match v with
  | VUsers l => js_ret l
  | VEmptyArray => js_ret []
  | _ => throw ("users." +:+ method +:+ " is not a function")
  end.

(** [users.find(u => u.id === userId)] *)
Definition find_user (users : list User) (userId : string) : option User :=
  snd <$> list_find (λ u, u_id u = userId) users.

(** [orders.find(o => o.id === id)], with the position of the object found:
    the handler mutates that element of the array in place. *)
Definition find_order (orders : list Order) (id : string) : option (nat * Order) :=
  list_find (λ o, o_id o = id) orders.

(** [x || fallback] on a string that may be absent: the empty string is
    falsy as well. *)
Definition or_default (x : option string) (fallback : string) : string :=
  match x with
  | Some s => if bool_decide (s = "") then fallback else s
  | None => fallback
  end.

(** [x || null] *)
Definition or_null (x : option string) : option string :=
  match x with
  | Some s => if bool_decide (s = "") then None else Some s
  | None => None
  end.

(** The body of [POST /api/orders]. *)
Record OrderRequest := {
  r_userId : string;
  r_items : list Item;
  r_totalAmount : Z;
  r_paymentMethod : string;
  r_adminId : string;
  r_orderType : option string;
  r_scheduledTime : option string
}.

(** The order object literal of [POST /api/orders]. *)
Definition new_order (e : Env) (req : OrderRequest) (orderId : string) : Order :=
  {| o_id := uuid e;
     o_orderId := orderId;
     o_userId := r_userId req;
     o_adminId := r_adminId req;
     o_items := r_items req;
     o_totalAmount := r_totalAmount req;
     o_paymentMethod := r_paymentMethod req;
     o_orderType := or_default (r_orderType req) "instant";
     o_scheduledTime := or_null (r_scheduledTime req);
     o_status := "pending";
     o_otp := generate4DigitOTP e;
     o_createdAt := nowISO e;
     o_pickup := "Canteen Pickup";
     o_updatedAt := None |}.

(** [POST /api/orders] *)
Definition createOrder_handler (e : Env) (req : OrderRequest) : Js Response :=
  let! orderId := generateOrderID e in
  let order := new_order e req orderId in
  let! orders := readFromJSON "orders.json" in
  let! orders := orders_array "push" orders in
  let orders := orders ++ [order] in
  do! saveToJSON e "orders.json" (VOrders orders) in
  do! saveToDynamoDB e (ORDERS_TABLE e) order in
  let! users := readFromJSON "users.json" in
  let! users := users_array "find" users in
  match find_user users (r_userId req) with
  | None => throw "Cannot read properties of undefined (reading 'email')"
  | Some user =>
      do! sendEmail e (u_email user) ("Order Placed: " +:+ orderId) (Some (o_otp order)) in
      js_ret (Json 200 (BOrder order))
  end.

Definition createOrder (e : Env) (req : OrderRequest) : World → Response * World :=
  route (createOrder_handler e req).

(** The query string of [GET /api/orders]. *)
Record OrderQuery := {
  q_userId : option string;
  q_adminId : option string;
  q_status : option string
}.

(** [if (x) orders = orders.filter(o => field(o) === x)] *)
Definition filter_if (x : option string) (field : Order → string) (orders : JsValue)
  : Js JsValue :=
  match x with
  | None => js_ret orders
  | Some s =>
      if bool_decide (s = "") then js_ret orders
      else
        let! l := orders_array "filter" orders in
        js_ret (VOrders (filter (λ o, field o = s) l))
  end.

(** The callback of [orders.map(..)] in [GET /api/orders]. *)
Definition enrich (users : list User) (order : Order) : ListedOrder :=
  let user := find_user users (o_userId order) in
  {| l_order := order;
     l_userName := or_default (user ≫= u_name) "Unknown";
     l_userPhone := or_default (user ≫= u_phone) "N/A" |}.

(** [GET /api/orders].  The callback of [map] calls [users.find], so a
    [users] value that is no array only throws when there is an order to
    map. *)
Definition listOrders_handler (q : OrderQuery) : Js Response :=
  let! orders := readFromJSON "orders.json" in
  let! orders := filter_if (q_userId q) o_userId orders in
  let! orders := filter_if (q_adminId q) o_adminId orders in
  let! orders := filter_if (q_status q) o_status orders in
  let! users := readFromJSON "users.json" in
  let! orders := orders_array "map" orders in
  let! listed :=
    match orders with
    | [] => js_ret []
    | _ => let! users := users_array "find" users in
           js_ret (enrich users <$> orders)
    end in
  js_ret (JsonOrders (reverse listed)).

Definition listOrders (q : OrderQuery) : World → Response * World :=
  route (listOrders_handler q).

Definition no_filter : OrderQuery :=
  {| q_userId := None; q_adminId := None; q_status := None |}.

(** [order.status = status; order.updatedAt = now] *)
Definition restamp (status now : string) (o : Order) : Order :=
  {| o_id := o_id o;
     o_orderId := o_orderId o;
     o_userId := o_userId o;
     o_adminId := o_adminId o;
     o_items := o_items o;
     o_totalAmount := o_totalAmount o;
     o_paymentMethod := o_paymentMethod o;
     o_orderType := o_orderType o;
     o_scheduledTime := o_scheduledTime o;
     o_status := status;
     o_otp := o_otp o;
     o_createdAt := o_createdAt o;
     o_pickup := o_pickup o;
     o_updatedAt := Some now |}.

(** The upper case of an ASCII character: the letters a-z are mapped, every
    other ASCII character is kept. *)
Definition upper_ascii (c : Ascii.ascii) : Ascii.ascii :=
  let n := Ascii.nat_of_ascii c in
  if bool_decide (97 ≤ n ≤ 122)%nat then Ascii.ascii_of_nat (n - 32) else c.

Fixpoint upper_ascii_string (s : string) : string :=
  match s with
  | EmptyString => EmptyString
  | String c s => String (upper_ascii c) (upper_ascii_string s)
  end.

(** No byte of the string is above 127: the string is plain ASCII. *)
Fixpoint plain_ascii (s : string) : bool :=
  match s with
  | EmptyString => true
  | String c s => bool_decide (Ascii.nat_of_ascii c < 128)%nat && plain_ascii s
  end.

(** [s.toUpperCase()].  On plain ASCII it maps the letters a-z and nothing
    else; on any other string the case mapping is Unicode's, which the
    runtime brings and the environment stands for. *)
Definition toUpperCase (e : Env) (s : string) : string :=
  if plain_ascii s then upper_ascii_string s else unicode_upper e s.

(** The subject [`Order ${order.orderId} - ${status.toUpperCase()}`] *)
Definition status_subject (e : Env) (order : Order) (status : string) : string :=
  "Order " +:+ o_orderId order +:+ " - " +:+ toUpperCase e status.

(** [PATCH /api/orders/:id/status] *)
Definition setStatus_handler (e : Env) (id status : string) : Js Response :=
  let! orders := readFromJSON "orders.json" in
  let! orders := orders_array "find" orders in
  match find_order orders id with
  | None => js_ret (Json 404 (BError "Order not found"))
  | Some (i, order) =>
      let order := restamp status (nowISO e) order in
      let orders := <[i := order]> orders in
      do! saveToJSON e "orders.json" (VOrders orders) in
      do! saveToDynamoDB e (ORDERS_TABLE e) order in
      let! users := readFromJSON "users.json" in
      let! users := users_array "find" users in
      do! match find_user users (o_userId order) with
          | Some user =>
              if u_notifications user
              then sendEmail e (u_email user) (status_subject e order status)
                     (if bool_decide (status = "ready") then Some (o_otp order) else None)
              else js_ret tt
          | None => js_ret tt
          end in
      js_ret (Json 200 (BOrder order))
  end.

Definition setStatus (e : Env) (id status : string) : World → Response * World :=
  route (setStatus_handler e id status).

(** [['pending', 'confirmed'].includes(order.status)] *)
Definition cancellable (status : string) : bool :=
  bool_decide (status ∈ ["pending"; "confirmed"]).

(** [PATCH /api/orders/:id/cancel] *)
Definition cancelOrder_handler (e : Env) (id : string) : Js Response :=
  let! orders := readFromJSON "orders.json" in
  let! orders := orders_array "find" orders in
  match find_order orders id with
  | None => js_ret (Json 404 (BError "Order not found"))
  | Some (i, order) =>
      if negb (cancellable (o_status order))
      then js_ret (Json 400 (BError "Order cannot be cancelled at this stage"))
      else
        let order := restamp "cancelled" (nowISO e) order in
        let orders := <[i := order]> orders in
        do! saveToJSON e "orders.json" (VOrders orders) in
        do! saveToDynamoDB e (ORDERS_TABLE e) order in
        js_ret (Json 200 (BOrder order))
  end.

Definition cancelOrder (e : Env) (id : string) : World → Response * World :=
  route (cancelOrder_handler e id).

(** ** Overlapping allocations

    [generateOrderID] suspends twice: at [await readFromJSON(..)] and at
    [await saveToJSON(..)].  Between two suspension points the event loop
    may resume any other pending call.  A call of [generateOrderID] is
    therefore a little state machine, and a run of several calls is a
    schedule telling which call is resumed next. *)

Inductive Alloc :=
| Called                        (* about to read the counter file *)
| Loaded (counter : JsValue)    (* holds the object it has read *)
| Resolved (code : string).     (* has written the counter and returned *)

Definition alloc_step (e : Env) (a : Alloc) : Js Alloc :=
  match a with
  | Called =>
      let! counter := readFromJSON "order-counter.json" in
      js_ret (Loaded counter)
  | Loaded counter =>
      let bumped := bump (today e) counter in
      do! saveToJSON e "order-counter.json" (stringify_counter counter bumped) in
      js_ret (Resolved (order_code (c_counter bumped)))
  | Resolved code => js_ret (Resolved code)
  end.

(** Resume call number [i] of the pool up to its next suspension point. *)
Definition resume (e : Env) (i : nat) (pool : list Alloc) : Js (list Alloc) :=
  match pool !! i with
  | Some a => let! a' := alloc_step e a in js_ret (<[i := a']> pool)
  | None => js_ret pool
  end.

Fixpoint interleave (e : Env) (schedule : list nat) (pool : list Alloc)
  : Js (list Alloc) :=
  match schedule with
  | [] => js_ret pool
  | i :: schedule =>
      let! pool := resume e i pool in
      interleave e schedule pool
  end.

(** What [readFromJSON('order-counter.json')] evaluates to. *)
Definition stored_counter (w : World) : JsValue :=
  default VEmptyObject (files w !! "order-counter.json").

(** No code has been allocated yet on the day of [e]: the counter file is
    from another day, or still holds the initial [counter: 0]. *)
Definition fresh_day (e : Env) (w : World) : Prop :=
  ∃ c, files w !! "order-counter.json" = Some (VCounter c) ∧
       (c_date c ≠ today e ∨ c_counter c = 0).

(** A schedule that lets each of [n] calls take both of its steps. *)
Definition complete (n : nat) (schedule : list nat) : Prop :=
  ∀ i, (i < n)%nat → length (filter (λ j, j = i) schedule) = 2%nat.

(** A schedule without overlap: the calls run one after the other, in the
    given order, each to its end. *)
Definition serial (order : list nat) : list nat :=
  order ≫= (λ i, [i; i]).

(** [CC-#1, ..., CC-#n] *)
Definition first_codes (n : nat) : list string :=
  (λ k, order_code (Z.of_nat k)) <$> seq 1 n.

(** The property of order codes on one day: the [n] calls have all
    returned, with pairwise distinct codes, which are exactly
    [CC-#1 .. CC-#n]. *)
Definition distinct_contiguous (n : nat) (pool : list Alloc) : Prop :=
  ∃ codes, pool = Resolved <$> codes ∧ NoDup codes ∧ codes ≡ₚ first_codes n.

(** The serialization property, for one run: whatever complete schedule the
    event loop follows for [n] calls of one day, their codes are pairwise
    distinct and contiguous from [CC-#1]. *)
Definition allocations_serialized (e : Env) (w : World) (n : nat)
    (schedule : list nat) : Prop :=
  fresh_day e w →
  complete n schedule →
  ∀ pool w', interleave e schedule (replicate n Called) w = (Returns pool, w') →
             distinct_contiguous n pool.

(** ** Legal transitions of the specification *)

(** The directed edges pending → confirmed → preparing → ready → delivered,
    and pending/confirmed → cancelled. *)
Definition legal_edge (from to : string) : bool :=
  bool_decide ((from, to) ∈
    [("pending", "confirmed"); ("confirmed", "preparing");
     ("preparing", "ready"); ("ready", "delivered");
     ("pending", "cancelled"); ("confirmed", "cancelled")]).

(** Two orders agree on every field but [status] and [updatedAt]. *)
Definition same_but_status (o o' : Order) : Prop :=
  o_id o' = o_id o ∧ o_orderId o' = o_orderId o ∧ o_userId o' = o_userId o ∧
  o_adminId o' = o_adminId o ∧ o_items o' = o_items o ∧
  o_totalAmount o' = o_totalAmount o ∧ o_paymentMethod o' = o_paymentMethod o ∧
  o_orderType o' = o_orderType o ∧ o_scheduledTime o' = o_scheduledTime o ∧
  o_otp o' = o_otp o ∧ o_createdAt o' = o_createdAt o ∧ o_pickup o' = o_pickup o.

(** ** Observing the mirror

    Two worlds hold the same durable content when their data directory and
    their outbox are equal; two handlers are blind to the mirror when, run
    from such worlds, they end with the same outcome in such worlds. *)

(** The owner that a listing shows for an order: the first user of
    [users.json], in file order, whose [id] is the order's [userId]. *)
Definition first_user_with_id (us : list User) (userId : string) (u : User) : Prop :=
  ∃ j, us !! j = Some u ∧ u_id u = userId ∧
       ∀ j' u', (j' < j)%nat → us !! j' = Some u' → u_id u' ≠ userId.

Definition same_store (w1 w2 : World) : Prop :=
  files w1 = files w2 ∧ outbox w1 = outbox w2.

Definition agree {A} (x y : Outcome A * World) : Prop :=
  x.1 = y.1 ∧ same_store x.2 y.2.

Definition mirror_blind {A} (m1 m2 : Js A) : Prop :=
  ∀ w1 w2, same_store w1 w2 → agree (m1 w1) (m2 w2).

(** A computation that calls [dynamoDB.put] at most [n] times, each call
    resolving or not as [ok] tells, logs every rejected call, and only ever
    appends to the console. *)
Definition mirrors (ok : bool) (n : nat) {A} (m : Js A) : Prop :=
  ∀ w r w', m w = (r, w') →
    ∃ puts, dynamo w' = dynamo w ++ puts ∧
            (length puts ≤ n)%nat ∧
            console w `prefix_of` console w' ∧
            ∀ p, p ∈ puts →
                 p_ok p = ok ∧ (ok = false → ErrDynamo (p_table p) ∈ console w').

(** ** The transition claims of the specification, on the code *)

(** A request that is not along an edge of the graph is refused and leaves
    the stored collection as it was. *)
Definition transition_guarded (e : Env) (id status : string) (w : World) : Prop :=
  ∀ os i o,
    files w !! "orders.json" = Some (VOrders os) →
    find_order os id = Some (i, o) →
    legal_edge (o_status o) status = false →
    status_code (setStatus e id status w).1 ≠ 200 ∧
    files (setStatus e id status w).2 !! "orders.json" = files w !! "orders.json".

(** Once an order has been cancelled with success, no later status request
    on it succeeds. *)
Definition cancelled_is_terminal (e e' : Env) (id status : string) (w : World) : Prop :=
  status_code (cancelOrder e id w).1 = 200 →
  status_code (setStatus e' id status (cancelOrder e id w).2).1 ≠ 200.

(** Orders placed one after the other, each request complete before the
    next begins. *)
Fixpoint createOrders (requests : list (Env * OrderRequest)) (w : World) : World :=
  match requests with
  | [] => w
  | (e, req) :: requests => createOrders requests (createOrder e req w).2
  end.

(** ** Further notions *)

Definition with_brevo_fails (b : bool) (e : Env) : Env :=
  {| today := today e; nowISO := nowISO e; uuid := uuid e;
     otp_draw := otp_draw e; ORDERS_TABLE := ORDERS_TABLE e;
     write_fails := write_fails e; dynamo_fails := dynamo_fails e;
     brevo_fails := b; unicode_upper := unicode_upper e |}.

(** The counter value that [generateOrderID] would print for a counter
    object it has read. *)
Definition next_counter (e : Env) (counter : JsValue) : Z :=
  c_counter (bump (today e) counter).

Definition is_resolved (a : Alloc) : bool :=
  match a with
  | Resolved _ => true
  | _ => false
  end.



(** How many calls of a pool have returned. *)
Definition resolved_count (pool : list Alloc) : nat :=
  length (filter (λ a, is_resolved a = true) pool).

(** What every schedule keeps true of a pool of calls on one day: the
    counter file and the objects held by the calls that have read it are at
    most one ahead of the number of calls that have returned, and every code
    returned is numbered between 1 and that number. *)
Definition counter_within (e : Env) (returned : nat) (v : JsValue) : Prop :=
  counter_object v ∧
  (1 ≤ next_counter e v ≤ Z.of_nat returned + 1)%Z ∧
  (next_counter e v ≤ 2 ^ 53)%Z.

Definition alloc_inv (e : Env) (pool : list Alloc) (w : World) : Prop :=
  counter_within e (resolved_count pool) (stored_counter w) ∧
  (∀ i v, pool !! i = Some (Loaded v) →
          counter_within e (resolved_count pool) v) ∧
  (∀ i c, pool !! i = Some (Resolved c) →
          ∃ k, c = order_code k ∧ (1 ≤ k ≤ Z.of_nat (resolved_count pool))%Z).

(** [if (x) .. o.field === x]: what a query parameter lets through. *)
Definition passes (x : option string) (field : string) : Prop :=
  match or_null x with
  | Some s => field = s
  | None => True
  end.

Global Instance passes_dec (x : option string) (field : string) :
  Decision (passes x field).
Proof. unfold passes. destruct (or_null x); apply _. Defined.

(** The orders that the three conditional filters of [GET /api/orders] let
    through, one after the other. *)
Definition selected (q : OrderQuery) (o : Order) : Prop :=
  passes (q_status q) (o_status o) ∧
  passes (q_adminId q) (o_adminId o) ∧
  passes (q_userId q) (o_userId o).

Global Instance selected_dec (q : OrderQuery) (o : Order) : Decision (selected q o).
Proof. unfold selected. apply _. Defined.

(** A handler that leaves the data directory, the mirror and the outbox
    alone and only ever appends to the console. *)
Definition read_only {A} (m : Js A) : Prop :=
  ∀ w, files (m w).2 = files w ∧ dynamo (m w).2 = dynamo w ∧
       outbox (m w).2 = outbox w ∧ console w `prefix_of` console (m w).2.

(** Two runs that cannot be told apart by their outcome, the data directory
    and the mirror. *)
Definition same_durable (w1 w2 : World) : Prop :=
  files w1 = files w2 ∧ dynamo w1 = dynamo w2.

Definition mail_blind {A} (m1 m2 : Js A) : Prop :=
  ∀ w1 w2, same_durable w1 w2 →
    (m1 w1).1 = (m2 w2).1 ∧ same_durable (m1 w1).2 (m2 w2).2.

(** The mail of the status route. *)
Definition status_mail (e : Env) (status : string) (o : Order) (u : User) : Email :=
  {| m_to := u_email u;
     m_subject := status_subject e (restamp status (nowISO e) o) status;
     m_otp := if bool_decide (status = "ready") then Some (o_otp o) else None |}.

(** The mail of [POST /api/orders]. *)
Definition order_mail (order : Order) (u : User) : Email :=
  {| m_to := u_email u;
     m_subject := "Order Placed: " +:+ o_orderId order;
     m_otp := Some (o_otp order) |}.

(** A request to one of the four order routes, as the router dispatches it. *)
Inductive Request :=
| PostOrder (e : Env) (req : OrderRequest)          (* app.post('/api/orders') *)
| GetOrders (q : OrderQuery)                        (* app.get('/api/orders') *)
| PatchStatus (e : Env) (id status : string)        (* app.patch('/api/orders/:id/status') *)
| PatchCancel (e : Env) (id : string).              (* app.patch('/api/orders/:id/cancel') *)

Definition handle (r : Request) : World → Response * World :=
  match r with
  | PostOrder e req => createOrder e req
  | GetOrders q => listOrders q
  | PatchStatus e id status => setStatus e id status
  | PatchCancel e id => cancelOrder e id
  end.

(** Requests served one after the other. *)
Fixpoint serve (requests : list Request) (w : World) : World :=
  match requests with
  | [] => w
  | r :: requests => serve requests (handle r w).2
  end.

(** A stored collection that has only grown at its end, each of the old
    orders still at its position and changed at most in [status] and
    [updatedAt]. *)
Definition grown (os os' : list Order) : Prop :=
  (length os ≤ length os')%nat ∧
  ∀ j o, os !! j = Some o → ∃ o', os' !! j = Some o' ∧ same_but_status o o'.

(** [GET /api/analytics/:adminId]: the orders of the admin, and the sum of
    [totalAmount] over those that are delivered
    ([adminOrders.filter(..).reduce((sum, o) => sum + o.totalAmount, 0)]),
    each addition being an addition of doubles. *)
Definition adminOrders (adminId : string) (orders : list Order) : list Order :=
  filter (λ o, o_adminId o = adminId) orders.

Definition totalRevenue (adminId : string) (orders : list Order) : Z :=
  foldl (λ sum o, js_add sum (o_totalAmount o)) 0
    (filter (λ o, o_status o = "delivered") (adminOrders adminId orders)).

Definition totalOrders (adminId : string) (orders : list Order) : nat :=
  length (adminOrders adminId orders).

(** The delivered amounts of an admin added up as integers, without
    rounding: what the sum in doubles is measured against. *)
Definition exact_sum (orders : list Order) : Z :=
  foldr (λ o s, o_totalAmount o + s) 0 orders.

Definition exact_revenue (adminId : string) (orders : list Order) : Z :=
  exact_sum (filter (λ o, o_status o = "delivered") (adminOrders adminId orders)).

(** What one order adds to the revenue of an admin. *)
Definition counted (adminId : string) (o : Order) : Z :=
  if bool_decide (o_status o = "delivered" ∧ o_adminId o = adminId)
  then o_totalAmount o else 0.

(** ** Sample data *)

Definition monday : string := "Mon Nov 02 2026".

(** The case mapping of the sample environments: Unicode's on text of the
    Latin-1 range in UTF-8 (a-z; the letters U+00E0..U+00FE but the division
    sign, to U+00C0..U+00DE; sharp s to SS; y with diaeresis to U+0178; the
    micro sign to U+039C), every other byte kept. *)
Fixpoint upper_latin1_bytes (fuel : nat) (s : list nat) : list nat :=
  match fuel with
  | O => s
  | S fuel =>
      match s with
      | [] => []
      | 195%nat :: 159%nat :: s => 83%nat :: 83%nat :: upper_latin1_bytes fuel s
      | 195%nat :: 191%nat :: s => 197%nat :: 184%nat :: upper_latin1_bytes fuel s
      | 194%nat :: 181%nat :: s => 206%nat :: 156%nat :: upper_latin1_bytes fuel s
      | 195%nat :: b :: s =>
          195%nat
            :: (if bool_decide (160 ≤ b ≤ 190 ∧ b ≠ 183)%nat then b - 32 else b)%nat
            :: upper_latin1_bytes fuel s
      | b :: s =>
          (if bool_decide (97 ≤ b ≤ 122)%nat then b - 32 else b)%nat
            :: upper_latin1_bytes fuel s
      end
  end.

Definition upper_latin1 (s : string) : string :=
  String.string_of_list_ascii
    (Ascii.ascii_of_nat <$>
       upper_latin1_bytes (String.length s)
         (Ascii.nat_of_ascii <$> String.list_ascii_of_string s)).

Definition env0 : Env :=
  {| today := monday;
     nowISO := "2026-11-02T09:30:00.000Z";
     uuid := "0b9d6c1e-5f43-4c0a-9a55-6f0f2f1f7a10";
     otp_draw := 5271;
     ORDERS_TABLE := "Orders";
     write_fails := λ _, false;
     dynamo_fails := false;
     brevo_fails := false;
     unicode_upper := upper_latin1 |}.

Definition asha : User :=
  {| u_id := "u-asha"; u_name := Some "Asha"; u_phone := Some "9000000001";
     u_email := "asha@campus.example"; u_notifications := true |}.

Definition dosa : Item := {| i_id := "A"; i_quantity := 2; i_price := 50 |}.

Definition order_of (id code status : string) : Order :=
  {| o_id := id; o_orderId := code; o_userId := "u-asha"; o_adminId := "adm-1";
     o_items := [dosa]; o_totalAmount := 100; o_paymentMethod := "upi";
     o_orderType := "instant"; o_scheduledTime := None; o_status := status;
     o_otp := "4821"; o_createdAt := "2026-11-02T08:00:00.000Z";
     o_pickup := "Canteen Pickup"; o_updatedAt := None |}.

Definition world_of (counter : DailyCounter) (orders : list Order) : World :=
  {| files := {[ "order-counter.json" := VCounter counter;
                 "orders.json" := VOrders orders;
                 "users.json" := VUsers [asha] ]};
     dynamo := []; console := []; outbox := [] |}.

(** The data directory right after [initializeDataFiles] on that Monday,
    with one registered student. *)
Definition world0 : World :=
  world_of {| c_date := monday; c_counter := 0 |} [].

Definition request_of (userId : string) : OrderRequest :=
  {| r_userId := userId; r_items := [dosa]; r_totalAmount := 100;
     r_paymentMethod := "upi"; r_adminId := "adm-1";
     r_orderType := None; r_scheduledTime := None |}.

(** A data directory whose [orders.json] cannot be read. *)
Definition world_lost : World :=
  {| files := {[ "order-counter.json" := VCounter {| c_date := monday; c_counter := 0 |};
                 "users.json" := VUsers [asha] ]};
     dynamo := []; console := []; outbox := [] |}.

(** An environment in which every write to the data directory is rejected. *)
Definition env_readonly : Env :=
  {| today := monday;
     nowISO := "2026-11-02T09:30:00.000Z";
     uuid := "0b9d6c1e-5f43-4c0a-9a55-6f0f2f1f7a10";
     otp_draw := 5271;
     ORDERS_TABLE := "Orders";
     write_fails := λ _, true;
     dynamo_fails := false;
     brevo_fails := false;
     unicode_upper := upper_latin1 |}.

(** ** Tactics *)

(** Unfold the handlers down to the world they act on. *)
Ltac js_unfold :=
  unfold setStatus, cancelOrder, route, setStatus_handler, cancelOrder_handler,
    js_bind, js_ret, throw, readFromJSON, saveToJSON, saveToDynamoDB, sendEmail,
    console_log, orders_array, users_array, with_files in *.

(** Case analysis on a scrutinee of [H] that contains no other match. *)
Ltac destruct_innermost H :=
  match type of H with
  | context [match ?x with _ => _ end] =>
      lazymatch x with
      | context [match _ with _ => _ end] => fail
      | _ => destruct x eqn:?
      end
  end.

(** The same on the goal. *)
Ltac destruct_innermost_goal :=
  match goal with
  | |- context [match ?x with _ => _ end] =>
      lazymatch x with
      | context [match _ with _ => _ end] => fail
      | _ => destruct x eqn:?
      end
  end.

(** A computation that issues no [put]. *)
Ltac mirrors_quiet :=
  exists []; simpl; rewrite ?app_nil_r;
  split; [done|]; split; [done|]; split; [done || by apply prefix_app_r|];
  intros ? ?%elem_of_nil; done.

(** * Properties *)

(** ** Storage helpers *)

Lemma readFromJSON_Some (filename : string) (w : World) (data : JsValue) :
  files w !! filename = Some data →
  readFromJSON filename w = (Returns data, w).
Proof. intros H. unfold readFromJSON. by rewrite H. Qed.

Lemma readFromJSON_None (filename : string) (w : World) :
  files w !! filename = None →
  readFromJSON filename w =
    (Returns VEmptyObject,
     {| files := files w; dynamo := dynamo w;
        console := console w ++ [ErrReading filename]; outbox := outbox w |}).
Proof. intros H. unfold readFromJSON. by rewrite H. Qed.

Lemma readFromJSON_files (filename : string) (w : World) :
  ∃ w', readFromJSON filename w =
          (Returns (default VEmptyObject (files w !! filename)), w') ∧
        files w' = files w ∧ dynamo w' = dynamo w ∧ outbox w' = outbox w.
Proof.
  destruct (files w !! filename) as [data|] eqn:H.
  - exists w. by rewrite (readFromJSON_Some _ _ _ H).
  - eexists. by rewrite (readFromJSON_None _ _ H).
Qed.

Lemma saveToJSON_ok (e : Env) (filename : string) (data : JsValue) (w : World) :
  write_fails e filename = false →
  saveToJSON e filename data w =
    (Returns tt, with_files (<[filename := data]> (files w)) w).
Proof. intros H. unfold saveToJSON. by rewrite H. Qed.

Lemma saveToJSON_fails (e : Env) (filename : string) (data : JsValue) (w : World) :
  write_fails e filename = true →
  saveToJSON e filename data w =
    (Returns tt,
     {| files := files w; dynamo := dynamo w;
        console := console w ++ [ErrSaving filename]; outbox := outbox w |}).
Proof. intros H. unfold saveToJSON. by rewrite H. Qed.

(** Below 2^53 in magnitude, and at 2^53 itself, an integer is a double. *)
Lemma round_double_exact (z : Z) : (- 2 ^ 53 ≤ z ≤ 2 ^ 53)%Z → round_double z = z.
Proof.
  intros Hz. unfold round_double.
  destruct (decide (Z.abs z = 2 ^ 53)) as [Habs|Habs].
  - assert (z = 2 ^ 53 ∨ z = - 2 ^ 53) as [-> | ->] by lia; reflexivity.
  - assert (Z.log2 (Z.abs z) < 53) as Hlog.
    { destruct (decide (Z.abs z = 0)) as [->|Hnz]; [reflexivity|].
      apply Z.log2_lt_pow2; lia. }
    destruct (Z.leb_spec (Z.log2 (Z.abs z) - 52) 0); [done|lia].
Qed.

Lemma js_add_exact (a b : Z) : (- 2 ^ 53 ≤ a + b ≤ 2 ^ 53)%Z → js_add a b = a + b.
Proof. apply round_double_exact. Qed.

Lemma js_incr_safe (n : Z) : js_safe n → js_incr n = n + 1.
Proof. unfold js_safe. intros Hn. apply js_add_exact. lia. Qed.

(** At 2^53 the counter stops moving. *)
Lemma js_incr_stuck : js_incr (2 ^ 53) = 2 ^ 53.
Proof. reflexivity. Qed.

Lemma js_incr_bounds (n : Z) :
  (0 ≤ n ≤ 2 ^ 53)%Z → (1 ≤ js_incr n ≤ n + 1)%Z ∧ (js_incr n ≤ 2 ^ 53)%Z.
Proof.
  intros Hn. destruct (decide (n = 2 ^ 53)) as [->|Hne].
  - rewrite js_incr_stuck. lia.
  - rewrite js_incr_safe by (unfold js_safe; lia). lia.
Qed.

Lemma stringify_counter_object (v : JsValue) (c : DailyCounter) :
  counter_object v → stringify_counter v c = VCounter c.
Proof. by destruct v. Qed.

Lemma bump_date (d : string) (v : JsValue) : c_date (bump d v) = d.
Proof.
  destruct v as [| |c| |]; simpl; try done.
  case_bool_decide as H; simpl; [done|].
  by destruct (decide (c_date c = d)).
Qed.

Lemma bump_fresh (e : Env) (w : World) :
  fresh_day e w → bump (today e) (stored_counter w) = {| c_date := today e; c_counter := 1 |}.
Proof.
  intros (c & Hc & Hfresh). unfold stored_counter. rewrite Hc. simpl.
  case_bool_decide as H; [done|].
  destruct Hfresh as [Hd | H0]; [done|].
  rewrite H0. change (js_incr 0) with 1. f_equal.
  by destruct (decide (c_date c = today e)).
Qed.

Lemma bump_counter (d : string) (c : DailyCounter) :
  js_safe (c_counter c) →
  bump d (VCounter c) =
    {| c_date := d;
       c_counter := if bool_decide (c_date c ≠ d) then 1 else c_counter c + 1 |}.
Proof.
  intros Hc. simpl. case_bool_decide as Hd; [done|].
  rewrite js_incr_safe by done. f_equal. by destruct (decide (c_date c = d)).
Qed.

Lemma bump_next (d : string) (n : Z) :
  js_safe n →
  bump d (VCounter {| c_date := d; c_counter := n |}) = {| c_date := d; c_counter := n + 1 |}.
Proof. intros Hn. simpl. case_bool_decide; [done|]. by rewrite js_incr_safe. Qed.

(** [generateOrderID] as one step: the code and the counter file come from
    [bump] of what is stored. *)
Lemma generateOrderID_run (e : Env) (w : World) :
  ∃ w1, readFromJSON "order-counter.json" w = (Returns (stored_counter w), w1) ∧
        files w1 = files w ∧ dynamo w1 = dynamo w ∧ outbox w1 = outbox w ∧
        generateOrderID e w =
          (let counter := bump (today e) (stored_counter w) in
           match saveToJSON e "order-counter.json"
                   (stringify_counter (stored_counter w) counter) w1 with
           | (_, w2) => (Returns (order_code (c_counter counter)), w2)
           end).
Proof.
  destruct (readFromJSON_files "order-counter.json" w) as (w1 & Hr & Hf & Hd & Ho).
  exists w1. repeat split; try done.
  unfold generateOrderID, js_bind. rewrite Hr. fold (stored_counter w). simpl.
  unfold saveToJSON. by destruct (write_fails e _).
Qed.

(** C2: on a stored counter of another day, [generateOrderID] resets
    the counter to 1, stores today's date and returns [CC-#1]; on a counter
    of today it adds exactly 1 and returns the code of the new value.  In
    both cases the new counter is in the counter file when the call
    returns. *)
Theorem generateOrderID_resets_or_increments (e : Env) (w : World) (c : DailyCounter) :
  files w !! "order-counter.json" = Some (VCounter c) →
  js_safe (c_counter c) →
  write_fails e "order-counter.json" = false →
  (c_date c ≠ today e →
   generateOrderID e w =
     (Returns "CC-#1",
      with_files (<["order-counter.json" :=
                      VCounter {| c_date := today e; c_counter := 1 |}]> (files w)) w)) ∧
  (c_date c = today e →
   generateOrderID e w =
     (Returns (order_code (c_counter c + 1)),
      with_files (<["order-counter.json" :=
                      VCounter {| c_date := c_date c; c_counter := c_counter c + 1 |}]>
                    (files w)) w)).
Proof.
  intros Hc Hsafe Hw.
  unfold generateOrderID, js_bind.
  rewrite (readFromJSON_Some _ _ _ Hc). cbn [bump stringify_counter].
  split; intros Hd; case_bool_decide; try done;
    rewrite ?js_incr_safe by done; by rewrite saveToJSON_ok.
Qed.

Lemma generateOrderID_resets_or_increments_witness :
  generateOrderID env0
    (world_of {| c_date := "Sun Nov 01 2026"; c_counter := 41 |} []) =
    (Returns "CC-#1",
     with_files (<["order-counter.json" :=
                     VCounter {| c_date := monday; c_counter := 1 |}]>
                   (files (world_of {| c_date := "Sun Nov 01 2026"; c_counter := 41 |} [])))
       (world_of {| c_date := "Sun Nov 01 2026"; c_counter := 41 |} [])) ∧
  generateOrderID env0 (world_of {| c_date := monday; c_counter := 41 |} []) =
    (Returns "CC-#42",
     with_files (<["order-counter.json" :=
                     VCounter {| c_date := monday; c_counter := 42 |}]>
                   (files (world_of {| c_date := monday; c_counter := 41 |} [])))
       (world_of {| c_date := monday; c_counter := 41 |} [])).
Proof.
  split.
  - apply (generateOrderID_resets_or_increments env0
             (world_of {| c_date := "Sun Nov 01 2026"; c_counter := 41 |} [])
             {| c_date := "Sun Nov 01 2026"; c_counter := 41 |});
      [ reflexivity | unfold js_safe; simpl; lia | reflexivity | discriminate ].
  - apply (generateOrderID_resets_or_increments env0
             (world_of {| c_date := monday; c_counter := 41 |} [])
             {| c_date := monday; c_counter := 41 |});
      [ reflexivity | unfold js_safe; simpl; lia | reflexivity | reflexivity ].
Defined.

(** ** Order codes *)

Global Instance order_code_inj : Inj (=) (=) order_code.
Proof.
  intros m n H. unfold order_code in H.
  apply (inj (String.append "CC-#")) in H.
  by apply (inj pretty) in H.
Qed.

Lemma first_codes_NoDup (n : nat) : NoDup (first_codes n).
Proof.
  unfold first_codes. apply NoDup_fmap_2; [|apply NoDup_seq].
  intros j k H. apply (inj order_code) in H. lia.
Qed.

Lemma generateOrderID_next (e : Env) (w : World) :
  write_fails e "order-counter.json" = false →
  counter_object (stored_counter w) →
  ∃ w', generateOrderID e w =
          (Returns (order_code (c_counter (bump (today e) (stored_counter w)))), w') ∧
        stored_counter w' = VCounter (bump (today e) (stored_counter w)).
Proof.
  intros Hw Hobj. destruct (generateOrderID_run e w) as (w1 & _ & Hf & _ & _ & ->).
  cbv zeta. rewrite saveToJSON_ok by done. eexists. split; [done|].
  unfold stored_counter at 1. simpl files. rewrite lookup_insert_eq. simpl.
  by apply stringify_counter_object.
Qed.

(** Letting one call take its two steps back to back is a call of
    [generateOrderID]. *)
Lemma resume_twice (e : Env) (i : nat) (pool : list Alloc) (w : World) :
  pool !! i = Some Called →
  interleave e [i; i] pool w =
    match generateOrderID e w with
    | (Returns code, w') => (Returns (<[i := Resolved code]> pool), w')
    | (Throws msg, w') => (Throws msg, w')
    end.
Proof.
  intros Hi.
  assert (i < length pool)%nat as Hlen by (by eapply lookup_lt_Some).
  destruct (generateOrderID_run e w) as (w1 & Hr & _ & _ & _ & ->).
  simpl. unfold js_bind, resume. rewrite Hi. simpl. unfold js_bind. rewrite Hr. simpl.
  rewrite list_lookup_insert_eq by done. simpl. unfold js_bind.
  destruct (saveToJSON _ _ _ w1) as [[[]|msg] w2] eqn:Hs.
  - simpl. by rewrite list_insert_insert_eq.
  - unfold saveToJSON in Hs. destruct (write_fails e _); discriminate.
Qed.

Lemma interleave_app (e : Env) (s1 s2 : list nat) (pool : list Alloc) (w : World) :
  interleave e (s1 ++ s2) pool w =
    js_bind (interleave e s1 pool) (interleave e s2) w.
Proof.
  revert pool w. induction s1 as [|i s1 IH]; intros pool w; [reflexivity|].
  simpl. unfold js_bind.
  destruct (resume e i pool w) as [[pool1|msg] w1]; [|reflexivity].
  specialize (IH pool1 w1). unfold js_bind in IH. exact IH.
Qed.

(** Calls that run one after the other, from a counter whose next value is
    [k]: the [j]-th call to run returns [CC-#(k+j)], and the calls that did
    not run are left alone. *)
Lemma serial_run (e : Env) (order : list nat) :
  write_fails e "order-counter.json" = false →
  ∀ (pool : list Alloc) (w : World) (k : Z),
    counter_object (stored_counter w) →
    bump (today e) (stored_counter w) = {| c_date := today e; c_counter := k |} →
    (- 2 ^ 53 < k)%Z → (k + Z.of_nat (length order) ≤ 2 ^ 53)%Z →
    NoDup order →
    (∀ i, i ∈ order → pool !! i = Some Called) →
    ∃ pool' w',
      interleave e (serial order) pool w = (Returns pool', w') ∧
      length pool' = length pool ∧
      (∀ j i, order !! j = Some i →
              pool' !! i = Some (Resolved (order_code (k + Z.of_nat j)))) ∧
      (∀ i, i ∉ order → pool' !! i = pool !! i).
Proof.
  intros Hw. induction order as [|i order IH];
    intros pool w k Hobj Hk Hlo Hhi Hnd Hcalled.
  { exists pool, w. split; [done|]. split; [done|]. split; [|done].
    intros j i. by rewrite lookup_nil. }
  apply NoDup_cons in Hnd as [Hi Hnd]. simpl in Hhi.
  assert (pool !! i = Some Called) as Hpi by (apply Hcalled; left).
  assert (i < length pool)%nat as Hlen by (by eapply lookup_lt_Some).
  destruct (generateOrderID_next e w Hw Hobj) as (w1 & Hgen & Hstored).
  rewrite Hk in Hgen, Hstored. simpl in Hgen.
  destruct (IH (<[i := Resolved (order_code k)]> pool) w1 (k + 1)) as
    (pool' & w' & Hrun & Hlen' & Hcodes & Hrest).
  { by rewrite Hstored. }
  { rewrite Hstored. apply bump_next. unfold js_safe. lia. }
  { lia. }
  { lia. }
  { done. }
  { intros i' Hi'. rewrite list_lookup_insert_ne; [|by intros ->].
    apply Hcalled. by right. }
  exists pool', w'. split; [|split; [|split]].
  - unfold serial. rewrite bind_cons, interleave_app. unfold js_bind.
    rewrite (resume_twice e i pool w Hpi), Hgen. apply Hrun.
  - by rewrite Hlen', length_insert.
  - intros [|j] i' Hj; simpl in Hj.
    + injection Hj as <-. rewrite Hrest by done.
      rewrite list_lookup_insert_eq by done. do 3 f_equal. lia.
    + rewrite (Hcodes j i' Hj). do 3 f_equal. lia.
  - intros i' Hi'. apply not_elem_of_cons in Hi' as [Hne Hi'].
    rewrite Hrest by done. by rewrite list_lookup_insert_ne.
Qed.

(** A list that is known position by position along a permutation of its
    indices. *)
Lemma Permutation_along {A} (l : list A) (order : list nat) (f : nat → A) :
  order ≡ₚ seq 0 (length l) →
  (∀ j i, order !! j = Some i → l !! i = Some (f j)) →
  l ≡ₚ f <$> seq 0 (length l).
Proof.
  intros Hperm Hpos.
  assert ((l !!.) <$> order = Some <$> (f <$> seq 0 (length l))) as Horder.
  { apply list_eq. intros j. rewrite !list_lookup_fmap.
    destruct (order !! j) as [i|] eqn:Hj; simpl.
    - rewrite (Hpos _ _ Hj).
      assert (j < length l)%nat as Hlt.
      { apply lookup_lt_Some in Hj. by rewrite Hperm, length_seq in Hj. }
      by rewrite lookup_seq_lt.
    - apply lookup_ge_None in Hj. rewrite Hperm, length_seq in Hj.
      by rewrite lookup_seq_ge. }
  assert ((l !!.) <$> seq 0 (length l) = Some <$> l) as Hself.
  { apply list_eq. intros i. rewrite !list_lookup_fmap.
    destruct (decide (i < length l)%nat) as [Hlt|Hge].
    - rewrite lookup_seq_lt by done. simpl.
      destruct (lookup_lt_is_Some_2 l i Hlt) as [x Hx]. by rewrite Hx.
    - rewrite lookup_seq_ge by lia. simpl.
      by rewrite (proj2 (lookup_ge_None l i)) by lia. }
  assert (Some <$> l ≡ₚ Some <$> (f <$> seq 0 (length l))) as HP.
  { rewrite <- Hself, <- Horder. by rewrite Hperm. }
  apply Permutation_map_inv in HP as (l3 & Heq & HP).
  apply (inj (fmap Some)) in Heq. subst l3. by symmetry.
Qed.

Lemma serial_skips (order : list nat) (i : nat) :
  i ∉ order → filter (λ j, j = i) (serial order) = [].
Proof.
  induction order as [|a order IH]; intros Hi; [done|].
  apply not_elem_of_cons in Hi as [Hne Hi].
  unfold serial. rewrite bind_cons. simpl.
  rewrite !filter_cons_False by (by intros ->). by apply IH.
Qed.

Lemma serial_complete (n : nat) (order : list nat) :
  order ≡ₚ seq 0 n → complete n (serial order).
Proof.
  intros Hperm i Hi.
  assert (NoDup order) as Hnd by (rewrite Hperm; apply NoDup_seq).
  assert (i ∈ order) as Hin by (rewrite Hperm; apply elem_of_seq; lia).
  clear Hperm Hi. induction order as [|a order IH]; [by apply elem_of_nil in Hin|].
  apply NoDup_cons in Hnd as [Ha Hnd].
  unfold serial. rewrite bind_cons. simpl.
  destruct (decide (a = i)) as [->|Hne].
  - rewrite !filter_cons_True by done. simpl.
    fold (serial order). by rewrite serial_skips.
  - rewrite !filter_cons_False by done.
    apply elem_of_cons in Hin as [->|Hin]; [done|]. by apply IH.
Qed.

(** C1, as the code has it: when the [n] allocations of a day do not
    overlap (each call runs from its read to its write before the next one
    starts), whatever the order in which the calls are served, the run is a
    complete schedule, all calls return, their codes are pairwise distinct
    and are exactly [CC-#1 .. CC-#n], and the [j]-th call served gets
    [CC-#j]. *)
Theorem serial_allocations_contiguous (e : Env) (w : World) (n : nat) (order : list nat) :
  fresh_day e w →
  write_fails e "order-counter.json" = false →
  order ≡ₚ seq 0 n →
  Z.of_nat n < 2 ^ 53 →
  complete n (serial order) ∧
  ∃ pool w',
    interleave e (serial order) (replicate n Called) w = (Returns pool, w') ∧
    distinct_contiguous n pool ∧
    (∀ j i, order !! j = Some i →
            pool !! i = Some (Resolved (order_code (Z.of_nat (S j))))).
Proof.
  intros Hfresh Hw Hperm Hn. split; [by apply serial_complete|].
  destruct (serial_run e order Hw (replicate n Called) w 1) as
    (pool & w' & Hrun & Hlen & Hcodes & _).
  { destruct Hfresh as (c & Hc & _). unfold stored_counter. by rewrite Hc. }
  { by apply bump_fresh. }
  { lia. }
  { rewrite Hperm, length_seq. lia. }
  { rewrite Hperm. apply NoDup_seq. }
  { intros i Hi. rewrite Hperm in Hi. apply elem_of_seq in Hi.
    apply lookup_replicate_2. lia. }
  rewrite length_replicate in Hlen.
  assert (∀ j i, order !! j = Some i →
                 pool !! i = Some (Resolved (order_code (Z.of_nat (S j))))) as Hpos.
  { intros j i Hj. rewrite (Hcodes j i Hj). do 3 f_equal. lia. }
  exists pool, w'. split; [done|]. split; [|done].
  pose proof (Permutation_along pool order
                (λ j, Resolved (order_code (Z.of_nat (S j))))) as HP.
  rewrite Hlen in HP. specialize (HP Hperm Hpos).
  assert ((λ j, Resolved (order_code (Z.of_nat (S j)))) <$> seq 0 n =
          Resolved <$> first_codes n) as Hfirst.
  { unfold first_codes. rewrite <- (fmap_S_seq 0 n), <- !list_fmap_compose. done. }
  rewrite Hfirst in HP.
  apply Permutation_map_inv in HP as (codes & -> & HP).
  exists codes. split; [done|]. split; [|by symmetry].
  rewrite <- HP. apply first_codes_NoDup.
Qed.

Lemma serial_allocations_contiguous_witness :
  complete 2 (serial [1; 0]%nat) ∧
  ∃ pool w',
    interleave env0 (serial [1; 0]%nat) (replicate 2 Called) world0 = (Returns pool, w') ∧
    distinct_contiguous 2 pool ∧
    (∀ j i, [1; 0]%nat !! j = Some i →
            pool !! i = Some (Resolved (order_code (Z.of_nat (S j))))).
Proof.
  apply (serial_allocations_contiguous env0 world0 2 [1; 0]%nat).
  - exists {| c_date := monday; c_counter := 0 |}. split; [reflexivity|]. by right.
  - reflexivity.
  - apply perm_swap.
  - simpl. lia.
Defined.

(** C1 fails on the code: two calls of the same day that both read the
    counter before either writes it both return [CC-#1]. *)
Lemma overlapping_allocations_collide :
  ¬ allocations_serialized env0 world0 2 [0; 1; 0; 1]%nat.
Proof.
  intros Hclaim.
  destruct (Hclaim) with
    (pool := [Resolved "CC-#1"; Resolved "CC-#1"])
    (w' := with_files (<["order-counter.json" :=
                           VCounter {| c_date := monday; c_counter := 1 |}]>
                         (files world0)) world0)
    as (codes & Hpool & Hnd & _).
  - exists {| c_date := monday; c_counter := 0 |}. split; [reflexivity|]. by right.
  - intros i Hi. destruct i as [|[|i]]; [reflexivity|reflexivity|lia].
  - vm_compute. reflexivity.
  - destruct codes as [|c1 [|c2 [|]]]; try discriminate.
    simpl in Hpool. injection Hpool as <- <-.
    apply NoDup_cons in Hnd as [Hin _]. apply Hin. left.
Qed.

(** ** Running handlers *)

Lemma js_bind_returns {A B} (m : Js A) (k : A → Js B) (w w' : World) (a : A) :
  m w = (Returns a, w') → js_bind m k w = k a w'.
Proof. intros H. unfold js_bind. by rewrite H. Qed.

Lemma js_bind_throws {A B} (m : Js A) (k : A → Js B) (w w' : World) (msg : string) :
  m w = (Throws msg, w') → js_bind m k w = (Throws msg, w').
Proof. intros H. unfold js_bind. by rewrite H. Qed.

Lemma js_bind_inv {A B} (m : Js A) (k : A → Js B) (w w' : World) (r : Outcome B) :
  js_bind m k w = (r, w') →
  (∃ a w1, m w = (Returns a, w1) ∧ k a w1 = (r, w')) ∨
  (∃ msg, m w = (Throws msg, w') ∧ r = Throws msg).
Proof.
  unfold js_bind. destruct (m w) as [[a|msg] w1]; intros H.
  - left. by exists a, w1.
  - right. exists msg. by injection H as <- <-.
Qed.

Lemma route_returns (handler : Js Response) (w w' : World) (r : Response) :
  handler w = (Returns r, w') → route handler w = (r, w').
Proof. intros H. unfold route. by rewrite H. Qed.

Lemma route_throws (handler : Js Response) (w w' : World) (msg : string) :
  handler w = (Throws msg, w') → route handler w = (Json 500 (BError msg), w').
Proof. intros H. unfold route. by rewrite H. Qed.

Lemma saveToJSON_effect (e : Env) (filename : string) (data : JsValue) (w : World) :
  ∃ w', saveToJSON e filename data w = (Returns tt, w') ∧
        files w' = (if write_fails e filename then files w
                    else <[filename := data]> (files w)) ∧
        dynamo w' = dynamo w ∧ outbox w' = outbox w ∧
        console w' = console w ++
                     (if write_fails e filename then [ErrSaving filename] else []).
Proof.
  unfold saveToJSON. destruct (write_fails e filename); eexists; simpl;
    repeat split; by rewrite ?app_nil_r.
Qed.

Lemma saveToDynamoDB_effect (e : Env) (tableName : string) (item : Order) (w : World) :
  ∃ w', saveToDynamoDB e tableName item w = (Returns tt, w') ∧
        files w' = files w ∧ outbox w' = outbox w ∧
        dynamo w' = dynamo w ++ [{| p_table := tableName; p_item := item;
                                    p_ok := negb (dynamo_fails e) |}] ∧
        console w' = console w ++
                     (if dynamo_fails e then [ErrDynamo tableName] else []).
Proof.
  unfold saveToDynamoDB. destruct (dynamo_fails e); eexists; simpl;
    repeat split; by rewrite ?app_nil_r.
Qed.

Lemma sendEmail_effect (e : Env) (to subject : string) (otp : option string) (w : World) :
  ∃ w', sendEmail e to subject otp w = (Returns tt, w') ∧
        files w' = files w ∧ dynamo w' = dynamo w.
Proof. unfold sendEmail. destruct (brevo_fails e); eexists; by split. Qed.

(** The first half of [POST /api/orders], up to and including the mirror
    write: the world in which the handler goes on to look the owner up. *)
Lemma createOrder_prefix (e : Env) (req : OrderRequest) (w : World) (os : list Order) :
  files w !! "orders.json" = Some (VOrders os) →
  let counter := bump (today e) (stored_counter w) in
  let order := new_order e req (order_code (c_counter counter)) in
  ∃ w3,
    (∀ rest : string → Js Response,
       (let! orderId := generateOrderID e in
        let! orders := readFromJSON "orders.json" in
        let! orders := orders_array "push" orders in
        do! saveToJSON e "orders.json" (VOrders (orders ++ [new_order e req orderId])) in
        do! saveToDynamoDB e (ORDERS_TABLE e) (new_order e req orderId) in
        rest orderId) w = rest (order_code (c_counter counter)) w3) ∧
    files w3 =
      (if write_fails e "orders.json"
       then λ fs, fs else <["orders.json" := VOrders (os ++ [order])]>)
        ((if write_fails e "order-counter.json"
          then λ fs, fs else <["order-counter.json" := stringify_counter (stored_counter w) counter]>) (files w)) ∧
    dynamo w3 = dynamo w ++ [{| p_table := ORDERS_TABLE e; p_item := order;
                                p_ok := negb (dynamo_fails e) |}] ∧
    console w3 = console (readFromJSON "order-counter.json" w).2 ++
                 (if write_fails e "order-counter.json"
                  then [ErrSaving "order-counter.json"] else []) ++
                 (if write_fails e "orders.json" then [ErrSaving "orders.json"] else []) ++
                 (if dynamo_fails e then [ErrDynamo (ORDERS_TABLE e)] else []) ∧
    outbox w3 = outbox w.
Proof.
  intros Hos counter order.
  destruct (generateOrderID_run e w) as (w1 & Hr1 & Hf1 & Hd1 & Ho1 & Hgen).
  destruct (saveToJSON_effect e "order-counter.json"
              (stringify_counter (stored_counter w) counter) w1)
    as (w2 & Hs2 & Hf2 & Hd2 & Ho2 & Hc2).
  simpl in Hgen. fold counter in Hgen. rewrite Hs2 in Hgen.
  assert (files w2 !! "orders.json" = Some (VOrders os)) as Hos2.
  { rewrite Hf2, Hf1. destruct (write_fails e _); [done|].
    by rewrite lookup_insert_ne. }
  destruct (saveToJSON_effect e "orders.json" (VOrders (os ++ [order])) w2)
    as (w2' & Hs3 & Hf3 & Hd3 & Ho3 & Hc3).
  destruct (saveToDynamoDB_effect e (ORDERS_TABLE e) order w2')
    as (w3 & Hs4 & Hf4 & Ho4 & Hd4 & Hc4).
  exists w3. split; [|split; [|split; [|split]]].
  - intros rest.
    rewrite (js_bind_returns _ _ _ _ _ Hgen).
    rewrite (js_bind_returns _ _ _ _ _ (readFromJSON_Some _ _ _ Hos2)).
    simpl orders_array. unfold js_bind at 1, js_ret at 1.
    fold order. rewrite (js_bind_returns _ _ _ _ _ Hs3).
    by rewrite (js_bind_returns _ _ _ _ _ Hs4).
  - rewrite Hf4, Hf3, Hf2, Hf1. by destruct (write_fails e _), (write_fails e _).
  - by rewrite Hd4, Hd3, Hd2, Hd1.
  - rewrite Hc4, Hc3, Hc2, Hr1. simpl. by rewrite <- !(assoc_L (++)).
  - by rewrite Ho4, Ho3, Ho2, Ho1.
Qed.

(** The files other than the two the first half writes are as before. *)
Lemma createOrder_prefix_other (e : Env) (fs fs' : gmap string JsValue)
    (v1 v2 : JsValue) (filename : string) :
  fs' = (if write_fails e "orders.json"
         then λ fs, fs else <["orders.json" := v1]>)
          ((if write_fails e "order-counter.json"
            then λ fs, fs else <["order-counter.json" := v2]>) fs) →
  filename ≠ "orders.json" → filename ≠ "order-counter.json" →
  fs' !! filename = fs !! filename.
Proof.
  intros -> H1 H2.
  destruct (write_fails e _), (write_fails e _);
    by rewrite ?lookup_insert_ne by done.
Qed.

(** ** Creating an order *)

Lemma createOrder_unknown_owner (e : Env) (req : OrderRequest) (w : World)
    (os : list Order) (us : list User) :
  files w !! "orders.json" = Some (VOrders os) →
  files w !! "users.json" = Some (VUsers us) →
  find_user us (r_userId req) = None →
  let counter := bump (today e) (stored_counter w) in
  let order := new_order e req (order_code (c_counter counter)) in
  ∃ w',
    createOrder e req w =
      (Json 500 (BError "Cannot read properties of undefined (reading 'email')"), w') ∧
    files w' =
      (if write_fails e "orders.json"
       then λ fs, fs else <["orders.json" := VOrders (os ++ [order])]>)
        ((if write_fails e "order-counter.json"
          then λ fs, fs else <["order-counter.json" := stringify_counter (stored_counter w) counter]>) (files w)) ∧
    dynamo w' = dynamo w ++ [{| p_table := ORDERS_TABLE e; p_item := order;
                                p_ok := negb (dynamo_fails e) |}] ∧
    outbox w' = outbox w.
Proof.
  intros Hos Hus Hnone counter order.
  destruct (createOrder_prefix e req w os Hos) as (w3 & Hrun & Hf & Hd & _ & Ho).
  exists w3. split; [|done].
  unfold createOrder. apply route_throws.
  unfold createOrder_handler. cbv zeta. rewrite Hrun.
  assert (files w3 !! "users.json" = Some (VUsers us)) as Hus3.
  { rewrite <- Hus. by eapply createOrder_prefix_other. }
  rewrite (js_bind_returns _ _ _ _ _ (readFromJSON_Some _ _ _ Hus3)).
  simpl users_array. unfold js_bind, js_ret. by rewrite Hnone.
Qed.

(** C7: an order placed for an owner that is not in [users.json] is
    answered by the handler's catch-all, status 500 with the message of the
    [TypeError] thrown at [user.email]; no owner-not-found failure is
    raised, and the order is already in [orders.json]. *)
Theorem createOrder_unknown_owner_is_500 :
  (createOrder env0 (request_of "u-ghost") world0).1 =
    Json 500 (BError "Cannot read properties of undefined (reading 'email')") ∧
  files (createOrder env0 (request_of "u-ghost") world0).2 !! "orders.json" =
    Some (VOrders [new_order env0 (request_of "u-ghost") "CC-#1"]).
Proof. split; vm_compute; reflexivity. Qed.

Lemma find_user_None (us : list User) (userId : string) :
  find_user us userId = None ↔ ∀ u, u ∈ us → u_id u ≠ userId.
Proof.
  unfold find_user. rewrite fmap_None, list_find_None, Forall_forall. done.
Qed.

(** C9: the order is stored, and mirrored, before its owner is looked
    up.  On a counter file holding a counter object, when no user has the
    owner's id, the request is answered with an error, yet [orders.json] has
    gained the new order (with its code, its pickup code and status pending),
    the counter file holds the incremented (or, on a new day, restarted)
    counter, and no mail has been sent. *)
Theorem createOrder_failure_not_atomic (e : Env) (req : OrderRequest) (w : World)
    (os : list Order) (us : list User) (c : DailyCounter) :
  files w !! "orders.json" = Some (VOrders os) →
  files w !! "users.json" = Some (VUsers us) →
  (∀ u, u ∈ us → u_id u ≠ r_userId req) →
  write_fails e "orders.json" = false →
  write_fails e "order-counter.json" = false →
  files w !! "order-counter.json" = Some (VCounter c) →
  js_safe (c_counter c) →
  let n := if bool_decide (c_date c ≠ today e) then 1 else c_counter c + 1 in
  let order := new_order e req (order_code n) in
  ∃ msg w',
    createOrder e req w = (Json 500 (BError msg), w') ∧
    files w' !! "orders.json" = Some (VOrders (os ++ [order])) ∧
    files w' !! "order-counter.json" =
      Some (VCounter {| c_date := today e; c_counter := n |}) ∧
    o_orderId order = order_code n ∧
    o_otp order = generate4DigitOTP e ∧
    o_status order = "pending" ∧
    dynamo w' = dynamo w ++ [{| p_table := ORDERS_TABLE e; p_item := order;
                                p_ok := negb (dynamo_fails e) |}] ∧
    outbox w' = outbox w.
Proof.
  intros Hos Hus Hnone Hw1 Hw2 Hc Hsafe n order.
  apply find_user_None in Hnone.
  destruct (createOrder_unknown_owner e req w os us Hos Hus Hnone)
    as (w' & Hrun & Hf & Hd & Ho).
  assert (stored_counter w = VCounter c) as Hstored
    by (unfold stored_counter; by rewrite Hc).
  rewrite Hw1, Hw2, Hstored, (bump_counter _ _ Hsafe) in Hf.
  rewrite Hstored, (bump_counter _ _ Hsafe) in Hd.
  eexists _, w'. split; [exact Hrun|].
  rewrite Hf. split; [by rewrite lookup_insert_eq|].
  split; [by rewrite lookup_insert_ne, lookup_insert_eq|].
  done.
Qed.

Lemma createOrder_failure_not_atomic_witness :
  ∃ msg w',
    createOrder env0 (request_of "u-ghost")
      (world_of {| c_date := monday; c_counter := 6 |} [order_of "o-1" "CC-#6" "ready"]) =
      (Json 500 (BError msg), w') ∧
    files w' !! "orders.json" =
      Some (VOrders ([order_of "o-1" "CC-#6" "ready"] ++
                     [new_order env0 (request_of "u-ghost") (order_code 7)])) ∧
    files w' !! "order-counter.json" =
      Some (VCounter {| c_date := monday; c_counter := 7 |}).
Proof.
  destruct (createOrder_failure_not_atomic env0 (request_of "u-ghost")
              (world_of {| c_date := monday; c_counter := 6 |}
                 [order_of "o-1" "CC-#6" "ready"])
              [order_of "o-1" "CC-#6" "ready"] [asha]
              {| c_date := monday; c_counter := 6 |})
    as (msg & w' & Hrun & Hos & Hc & _);
    [ reflexivity | reflexivity
    | intros u ->%list_elem_of_singleton; discriminate
    | reflexivity | reflexivity | reflexivity
    | unfold js_safe; simpl; lia | ].
  exists msg, w'. split; [exact Hrun|]. split; [exact Hos|exact Hc].
Defined.

(** C8: when [orders.json] cannot be read, [readFromJSON] logs and
    returns the empty object, not an empty array, because its
    [Array.isArray] test looks at the file name; the order routes then throw
    on [orders.push] and [orders.map].  A rejected write is logged and
    [saveToJSON] returns normally, leaving the file as it was, so that
    [POST /api/orders] answers with success although nothing was stored. *)
Theorem readFromJSON_failure_is_empty_object :
  readFromJSON "orders.json" world_lost =
    (Returns VEmptyObject,
     {| files := files world_lost; dynamo := []; console := [ErrReading "orders.json"];
        outbox := [] |}) ∧
  (createOrder env0 (request_of "u-asha") world_lost).1 =
    Json 500 (BError "orders.push is not a function") ∧
  (listOrders no_filter world_lost).1 =
    Json 500 (BError "orders.map is not a function") ∧
  saveToJSON env_readonly "orders.json" (VOrders [order_of "o-1" "CC-#1" "pending"]) world0 =
    (Returns tt,
     {| files := files world0; dynamo := []; console := [ErrSaving "orders.json"];
        outbox := [] |}) ∧
  (createOrder env_readonly (request_of "u-asha") world0).1 =
    Json 200 (BOrder (new_order env_readonly (request_of "u-asha") "CC-#1")) ∧
  files (createOrder env_readonly (request_of "u-asha") world0).2 = files world0.
Proof. repeat split; vm_compute; reflexivity. Qed.

(** ** The mirror is best effort *)

Section MirrorBlind.
Context {A B : Type}.

Lemma blind_ret (a : A) : mirror_blind (js_ret a) (js_ret a).
Proof. intros w1 w2 H. by split. Qed.

Lemma blind_throw (msg : string) : mirror_blind (@throw A msg) (throw msg).
Proof. intros w1 w2 H. by split. Qed.

Lemma blind_bind (m1 m2 : Js A) (k1 k2 : A → Js B) :
  mirror_blind m1 m2 →
  (∀ a, mirror_blind (k1 a) (k2 a)) →
  mirror_blind (js_bind m1 k1) (js_bind m2 k2).
Proof.
  intros Hm Hk w1 w2 Hw. unfold js_bind.
  destruct (Hm w1 w2 Hw) as [Hout Hstore].
  destruct (m1 w1) as [[a1|msg1] w1'], (m2 w2) as [[a2|msg2] w2'];
    simpl in *; try discriminate.
  - injection Hout as ->. by apply Hk.
  - injection Hout as ->. by split.
Qed.
End MirrorBlind.

Lemma blind_read (filename : string) :
  mirror_blind (readFromJSON filename) (readFromJSON filename).
Proof.
  intros w1 w2 [Hf Ho]. unfold readFromJSON. rewrite Hf.
  destruct (files w2 !! filename); by split.
Qed.

Lemma blind_save (e1 e2 : Env) (filename : string) (data : JsValue) :
  write_fails e1 filename = write_fails e2 filename →
  mirror_blind (saveToJSON e1 filename data) (saveToJSON e2 filename data).
Proof.
  intros He w1 w2 [Hf Ho]. unfold saveToJSON. rewrite He.
  destruct (write_fails e2 filename); split; try done; split; simpl; congruence.
Qed.

Lemma blind_dynamo (e1 e2 : Env) (tableName : string) (item : Order) :
  mirror_blind (saveToDynamoDB e1 tableName item) (saveToDynamoDB e2 tableName item).
Proof.
  intros w1 w2 [Hf Ho]. unfold saveToDynamoDB.
  by destruct (dynamo_fails e1), (dynamo_fails e2).
Qed.

Lemma blind_email (e1 e2 : Env) (to subject : string) (otp : option string) :
  brevo_fails e1 = brevo_fails e2 →
  mirror_blind (sendEmail e1 to subject otp) (sendEmail e2 to subject otp).
Proof.
  intros He w1 w2 [Hf Ho]. unfold sendEmail. rewrite He.
  destruct (brevo_fails e2); split; try done; split; simpl; congruence.
Qed.

Lemma blind_orders_array (method : string) (v : JsValue) :
  mirror_blind (orders_array method v) (orders_array method v).
Proof. destruct v; apply blind_ret || apply blind_throw. Qed.

Lemma blind_users_array (method : string) (v : JsValue) :
  mirror_blind (users_array method v) (users_array method v).
Proof. destruct v; apply blind_ret || apply blind_throw. Qed.

Lemma blind_createOrder (e : Env) (req : OrderRequest) :
  mirror_blind (createOrder_handler (with_dynamo_fails true e) req)
               (createOrder_handler (with_dynamo_fails false e) req).
Proof.
  unfold createOrder_handler, generateOrderID. cbv zeta.
  repeat first
    [ apply blind_bind; [|intros ?]
    | apply blind_read
    | apply blind_save; reflexivity
    | apply blind_dynamo
    | apply blind_email; reflexivity
    | apply blind_orders_array
    | apply blind_users_array
    | apply blind_ret
    | apply blind_throw
    | progress destruct (find_user _ _) ].
Qed.

Section Mirrors.
Context {A B : Type} (ok : bool).

Lemma mirrors_ret (a : A) : mirrors ok 0 (js_ret a).
Proof. unfold js_ret. intros w r w' [= <- <-]. mirrors_quiet. Qed.

Lemma mirrors_throw (msg : string) : mirrors ok 0 (@throw A msg).
Proof. unfold throw. intros w r w' [= <- <-]. mirrors_quiet. Qed.

Lemma mirrors_bind (n1 n2 : nat) (m : Js A) (k : A → Js B) :
  mirrors ok n1 m → (∀ a, mirrors ok n2 (k a)) → mirrors ok (n1 + n2) (js_bind m k).
Proof.
  intros Hm Hk w r w' Hrun.
  apply js_bind_inv in Hrun as [(a & w1 & Hm1 & Hk1)|(msg & Hm1 & ->)].
  - destruct (Hm _ _ _ Hm1) as (p1 & Hd1 & Hl1 & Hc1 & Hlog1).
    destruct (Hk a _ _ _ Hk1) as (p2 & Hd2 & Hl2 & Hc2 & Hlog2).
    exists (p1 ++ p2). split; [by rewrite Hd2, Hd1, (assoc_L (++))|].
    split; [rewrite length_app; lia|].
    split; [by etrans|].
    intros p [Hp|Hp]%elem_of_app.
    + destruct (Hlog1 p Hp) as [Hok Hlog]. split; [done|]. intros Hfalse.
      eapply elem_of_prefix; [|exact Hc2]. by apply Hlog.
    + by apply Hlog2.
  - destruct (Hm _ _ _ Hm1) as (p1 & Hd1 & Hl1 & Hc1 & Hlog1).
    exists p1. split; [done|]. split; [lia|]. done.
Qed.
End Mirrors.

Lemma mirrors_log (ok : bool) (l : LogLine) : mirrors ok 0 (console_log l).
Proof. unfold console_log. intros w r w' [= <- <-]. mirrors_quiet. Qed.

Lemma mirrors_read (ok : bool) (filename : string) : mirrors ok 0 (readFromJSON filename).
Proof.
  intros w r w'. unfold readFromJSON. destruct (files w !! filename) as [data|].
  - apply (mirrors_ret ok data).
  - apply (mirrors_bind ok 0 0); [apply mirrors_log|intros _; apply mirrors_ret].
Qed.

Lemma mirrors_save (ok : bool) (e : Env) (filename : string) (data : JsValue) :
  mirrors ok 0 (saveToJSON e filename data).
Proof.
  unfold saveToJSON. destruct (write_fails e filename); [apply mirrors_log|].
  intros w r w' [= <- <-]. mirrors_quiet.
Qed.

Lemma mirrors_email (ok : bool) (e : Env) (to subject : string) (otp : option string) :
  mirrors ok 0 (sendEmail e to subject otp).
Proof.
  unfold sendEmail. destruct (brevo_fails e); [apply mirrors_log|].
  unfold console_log. intros w r w' [= <- <-]. mirrors_quiet.
Qed.

Lemma mirrors_dynamo (e : Env) (tableName : string) (item : Order) :
  mirrors (negb (dynamo_fails e)) 1 (saveToDynamoDB e tableName item).
Proof.
  intros w r w' Hrun.
  destruct (saveToDynamoDB_effect e tableName item w) as (w1 & Hrun1 & _ & _ & Hd & Hc).
  rewrite Hrun1 in Hrun. injection Hrun as <- <-.
  eexists. split; [exact Hd|]. split; [done|].
  split; [rewrite Hc; by apply prefix_app_r|].
  intros p ->%list_elem_of_singleton. simpl. split; [done|].
  rewrite Hc. destruct (dynamo_fails e); [|done].
  intros _. apply elem_of_app. right. by left.
Qed.

Lemma mirrors_orders_array (ok : bool) (method : string) (v : JsValue) :
  mirrors ok 0 (orders_array method v).
Proof. destruct v; apply mirrors_ret || apply mirrors_throw. Qed.

Lemma mirrors_users_array (ok : bool) (method : string) (v : JsValue) :
  mirrors ok 0 (users_array method v).
Proof. destruct v; apply mirrors_ret || apply mirrors_throw. Qed.

Lemma mirrors_createOrder (e : Env) (req : OrderRequest) :
  mirrors (negb (dynamo_fails e)) 1 (createOrder_handler e req).
Proof.
  unfold createOrder_handler, generateOrderID. cbv zeta.
  apply (mirrors_bind _ 0 1).
  { apply (mirrors_bind _ 0 0); [apply mirrors_read|intros ?].
    apply (mirrors_bind _ 0 0); [apply mirrors_save|intros ?; apply mirrors_ret]. }
  intros orderId.
  apply (mirrors_bind _ 0 1); [apply mirrors_read|intros ?].
  apply (mirrors_bind _ 0 1); [apply mirrors_orders_array|intros ?].
  apply (mirrors_bind _ 0 1); [apply mirrors_save|intros ?].
  apply (mirrors_bind _ 1 0); [apply mirrors_dynamo|intros ?].
  apply (mirrors_bind _ 0 0); [apply mirrors_read|intros ?].
  apply (mirrors_bind _ 0 0); [apply mirrors_users_array|intros ?].
  destruct (find_user _ _); [|apply mirrors_throw].
  apply (mirrors_bind _ 0 0); [apply mirrors_email|intros ?; apply mirrors_ret].
Qed.

(** C6: whether the mirror write of [POST /api/orders] is rejected or
    not, the response, the data directory and the outbox are the same.  The
    handler calls [put] at most once, so a rejected write is not retried, and
    the rejection is on the console. *)
Theorem createOrder_mirror_best_effort (e : Env) (req : OrderRequest) (w : World) :
  let down := createOrder (with_dynamo_fails true e) req w in
  let up := createOrder (with_dynamo_fails false e) req w in
  down.1 = up.1 ∧
  files down.2 = files up.2 ∧
  outbox down.2 = outbox up.2 ∧
  ∃ puts, dynamo down.2 = dynamo w ++ puts ∧
          (length puts ≤ 1)%nat ∧
          ∀ p, p ∈ puts → p_ok p = false ∧ ErrDynamo (p_table p) ∈ console down.2.
Proof.
  intros down up.
  destruct (blind_createOrder e req w w) as [Hout [Hf Ho]]; [done|].
  assert (down.1 = up.1 ∧ files down.2 = files up.2 ∧ outbox down.2 = outbox up.2)
    as (H1 & H2 & H3).
  { subst down up. unfold createOrder, route.
    destruct (createOrder_handler (with_dynamo_fails true e) req w) as [[r1|m1] w1],
             (createOrder_handler (with_dynamo_fails false e) req w) as [[r2|m2] w2];
      simpl in *; try discriminate; by simplify_eq. }
  do 3 (split; [done|]).
  assert (∃ r, createOrder_handler (with_dynamo_fails true e) req w = (r, down.2))
    as [r Hrun].
  { subst down. unfold createOrder, route.
    destruct (createOrder_handler _ req w) as [[r1|m1] w1]; by eexists. }
  destruct (mirrors_createOrder _ _ _ _ _ Hrun) as (puts & Hd & Hl & _ & Hlog).
  exists puts. split; [done|]. split; [done|].
  intros p Hp. destruct (Hlog p Hp) as [Hok Hlogged]. split; [done|by apply Hlogged].
Qed.

(** ** Listing orders *)

Lemma enrich_owner (us : list User) (o : Order) (u : User) (name phone : string) :
  find_user us (o_userId o) = Some u →
  u_name u = Some name → name ≠ "" →
  u_phone u = Some phone → phone ≠ "" →
  enrich us o = {| l_order := o; l_userName := name; l_userPhone := phone |}.
Proof.
  intros Hu Hn Hn' Hp Hp'. unfold enrich. rewrite Hu. simpl. rewrite Hn, Hp. simpl.
  by rewrite !bool_decide_eq_false_2.
Qed.

Lemma find_user_first (us : list User) (userId : string) (u : User) :
  first_user_with_id us userId u → find_user us userId = Some u.
Proof.
  intros (j & Hj & Hid & Hfirst). unfold find_user.
  assert (list_find (λ u, u_id u = userId) us = Some (j, u)) as ->; [|done].
  apply list_find_Some. split; [done|]. split; [done|].
  intros j' u' Hj' Hlt. by apply (Hfirst j' u').
Qed.

Lemma enrich_first (us : list User) (o : Order) (u : User) :
  first_user_with_id us (o_userId o) u →
  enrich us o = {| l_order := o;
                   l_userName := or_default (u_name u) "Unknown";
                   l_userPhone := or_default (u_phone u) "N/A" |}.
Proof. intros Hu. unfold enrich. by rewrite (find_user_first _ _ _ Hu). Qed.

Lemma enrich_unknown (us : list User) (o : Order) :
  (∀ u, u ∈ us → u_id u ≠ o_userId o) →
  enrich us o = {| l_order := o; l_userName := "Unknown"; l_userPhone := "N/A" |}.
Proof. intros Hnone%find_user_None. unfold enrich. by rewrite Hnone. Qed.

(** C5: without a filter, [GET /api/orders] answers with every stored
    order, each spread into an object that also carries the owner's name and
    phone, in the reverse of the stored order: the order stored at position
    [k] is answered at position [length - 1 - k].  The owner is the first user
    of [users.json] whose [id] is the order's [userId]; the name and the phone
    shown are that user's, or [Unknown] and [N/A] where the field is missing
    or empty or where no user has that id. *)
Theorem listOrders_all_reversed (w : World) (os : list Order) (us : list User) :
  files w !! "orders.json" = Some (VOrders os) →
  files w !! "users.json" = Some (VUsers us) →
  ∃ listed,
    listOrders no_filter w = (JsonOrders listed, w) ∧
    listed = reverse (enrich us <$> os) ∧
    l_order <$> listed = reverse os ∧
    (∀ k o, os !! k = Some o →
            listed !! (length os - S k)%nat = Some (enrich us o)) ∧
    (∀ o u name phone,
       o ∈ os → find_user us (o_userId o) = Some u →
       u_name u = Some name → name ≠ "" →
       u_phone u = Some phone → phone ≠ "" →
       {| l_order := o; l_userName := name; l_userPhone := phone |} ∈ listed) ∧
    (∀ k o u,
       os !! k = Some o → first_user_with_id us (o_userId o) u →
       listed !! (length os - S k)%nat =
         Some {| l_order := o;
                 l_userName := or_default (u_name u) "Unknown";
                 l_userPhone := or_default (u_phone u) "N/A" |}) ∧
    (∀ k o,
       os !! k = Some o → (∀ u, u ∈ us → u_id u ≠ o_userId o) →
       listed !! (length os - S k)%nat =
         Some {| l_order := o; l_userName := "Unknown"; l_userPhone := "N/A" |}).
Proof.
  intros Hos Hus. exists (reverse (enrich us <$> os)).
  assert (∀ k o, os !! k = Some o →
            reverse (enrich us <$> os) !! (length os - S k)%nat = Some (enrich us o))
    as Hat.
  { intros k o Hk.
    assert (k < length os)%nat as Hlt by (by eapply lookup_lt_Some).
    rewrite reverse_lookup by (rewrite length_fmap; lia).
    rewrite length_fmap, list_lookup_fmap.
    replace (length os - S (length os - S k))%nat with k by lia.
    by rewrite Hk. }
  split; [|split; [done|split; [|split; [exact Hat|split; [|split]]]]].
  - unfold listOrders. apply route_returns. unfold listOrders_handler.
    rewrite (js_bind_returns _ _ _ _ _ (readFromJSON_Some _ _ _ Hos)).
    simpl filter_if. unfold js_bind at 1 2 3, js_ret at 1 2 3.
    rewrite (js_bind_returns _ _ _ _ _ (readFromJSON_Some _ _ _ Hus)).
    simpl orders_array. unfold js_bind at 1, js_ret at 1.
    destruct os as [|o os]; [done|].
    simpl users_array. by unfold js_bind, js_ret.
  - rewrite <- fmap_reverse, <- list_fmap_compose.
    by rewrite (list_fmap_ext (l_order ∘ enrich us) id (reverse os)), list_fmap_id.
  - intros o u name phone Ho Hu Hn Hn' Hp Hp'.
    rewrite elem_of_reverse. apply list_elem_of_fmap. exists o. split; [|done].
    symmetry. by eapply enrich_owner.
  - intros k o u Hk Hu. rewrite (Hat k o Hk). f_equal. by apply enrich_first.
  - intros k o Hk Hnone. rewrite (Hat k o Hk). f_equal. by apply enrich_unknown.
Qed.

Lemma listOrders_all_reversed_witness :
  ∃ listed,
    listOrders no_filter
      (world_of {| c_date := monday; c_counter := 2 |}
         [order_of "o-1" "CC-#1" "ready"; order_of "o-2" "CC-#2" "pending"]) =
      (JsonOrders listed,
       world_of {| c_date := monday; c_counter := 2 |}
         [order_of "o-1" "CC-#1" "ready"; order_of "o-2" "CC-#2" "pending"]) ∧
    l_order <$> listed =
      [order_of "o-2" "CC-#2" "pending"; order_of "o-1" "CC-#1" "ready"] ∧
    listed !! 0%nat =
      Some {| l_order := order_of "o-2" "CC-#2" "pending";
              l_userName := "Asha"; l_userPhone := "9000000001" |} ∧
    listed !! 1%nat =
      Some {| l_order := order_of "o-1" "CC-#1" "ready";
              l_userName := "Asha"; l_userPhone := "9000000001" |}.
Proof.
  destruct (listOrders_all_reversed
              (world_of {| c_date := monday; c_counter := 2 |}
                 [order_of "o-1" "CC-#1" "ready"; order_of "o-2" "CC-#2" "pending"])
              [order_of "o-1" "CC-#1" "ready"; order_of "o-2" "CC-#2" "pending"]
              [asha])
    as (listed & Hrun & _ & Horder & _ & _ & Howner & _); [reflexivity|reflexivity|].
  assert (∀ id code status,
            first_user_with_id [asha] (o_userId (order_of id code status)) asha)
    as Hasha.
  { intros id code status. exists 0%nat. split; [reflexivity|].
    split; [reflexivity|]. intros j' u' Hlt. lia. }
  exists listed. split; [exact Hrun|]. split; [exact Horder|]. split.
  - apply (Howner 1%nat (order_of "o-2" "CC-#2" "pending") asha);
      [reflexivity|apply Hasha].
  - apply (Howner 0%nat (order_of "o-1" "CC-#1" "ready") asha);
      [reflexivity|apply Hasha].
Defined.

(** ** Status changes and cancellation *)

Lemma find_order_id (os : list Order) (id : string) (i : nat) (o : Order) :
  find_order os id = Some (i, o) → os !! i = Some o ∧ o_id o = id.
Proof. intros H. apply list_find_Some in H as (? & ? & _). done. Qed.

(** The object found is mutated in place: it is found again, at the same
    position, after the write. *)
Lemma find_order_insert (os : list Order) (id : string) (i : nat) (o o' : Order) :
  find_order os id = Some (i, o) → o_id o' = id →
  find_order (<[i := o']> os) id = Some (i, o').
Proof.
  intros H Hid. apply list_find_Some in H as (Hi & _ & Hfirst).
  apply list_find_insert_Some. right. left.
  split; [done|]. split; [done|]. split; [by eapply lookup_lt_Some|].
  split; [done|]. intros j z Hj Hlt. by eapply Hfirst.
Qed.

Lemma restamp_same (status now : string) (o : Order) :
  same_but_status o (restamp status now o).
Proof. by repeat split. Qed.

Lemma setStatus_not_found (e : Env) (id status : string) (w : World) (os : list Order) :
  files w !! "orders.json" = Some (VOrders os) →
  find_order os id = None →
  setStatus e id status w = (Json 404 (BError "Order not found"), w).
Proof. intros Hos Hnone. js_unfold. rewrite Hos. simpl. by rewrite Hnone. Qed.

Lemma setStatus_found (e : Env) (id status : string) (w : World)
    (os : list Order) (us : list User) (i : nat) (o : Order) :
  files w !! "orders.json" = Some (VOrders os) →
  files w !! "users.json" = Some (VUsers us) →
  find_order os id = Some (i, o) →
  ∃ w', setStatus e id status w =
          (Json 200 (BOrder (restamp status (nowISO e) o)), w') ∧
        files w' =
          (if write_fails e "orders.json" then files w
           else <["orders.json" := VOrders (<[i := restamp status (nowISO e) o]> os)]>
                  (files w)).
Proof.
  intros Hos Hus Hfind. js_unfold. rewrite Hos. simpl. rewrite Hfind.
  destruct (write_fails e "orders.json"), (dynamo_fails e); simpl;
    rewrite ?lookup_insert_ne by done; rewrite Hus; simpl;
    destruct (find_user us (o_userId o)) as [u|]; simpl;
    try destruct (u_notifications u); try destruct (brevo_fails e); simpl;
    eexists; split; reflexivity.
Qed.

(** C3, as the code has it: the status route has no transition
    table.  For an order that exists, whatever its current status (delivered
    and cancelled included) and whatever status is requested, the request
    succeeds, and the stored order takes the requested status and a fresh
    [updatedAt].  The only request the route refuses is one whose id matches
    no stored order: it is answered 404 and changes nothing. *)
Theorem setStatus_accepts_any_status (e : Env) (id status : string) (w : World)
    (os : list Order) (us : list User) :
  files w !! "orders.json" = Some (VOrders os) →
  files w !! "users.json" = Some (VUsers us) →
  write_fails e "orders.json" = false →
  (find_order os id = None →
   setStatus e id status w = (Json 404 (BError "Order not found"), w)) ∧
  (∀ i o, find_order os id = Some (i, o) →
     ∃ w', setStatus e id status w =
             (Json 200 (BOrder (restamp status (nowISO e) o)), w') ∧
           files w' = <["orders.json" :=
                          VOrders (<[i := restamp status (nowISO e) o]> os)]> (files w) ∧
           o_status (restamp status (nowISO e) o) = status ∧
           o_updatedAt (restamp status (nowISO e) o) = Some (nowISO e)).
Proof.
  intros Hos Hus Hw. split.
  - by apply setStatus_not_found.
  - intros i o Hfind.
    destruct (setStatus_found e id status w os us i o Hos Hus Hfind) as (w' & Hrun & Hf).
    rewrite Hw in Hf. by exists w'.
Qed.

Lemma setStatus_accepts_any_status_witness :
  ∃ w', setStatus env0 "o-1" "pending"
          (world_of {| c_date := monday; c_counter := 1 |}
             [order_of "o-1" "CC-#1" "delivered"]) =
          (Json 200 (BOrder (restamp "pending" (nowISO env0)
                               (order_of "o-1" "CC-#1" "delivered"))), w') ∧
        files w' !! "orders.json" =
          Some (VOrders [restamp "pending" (nowISO env0)
                           (order_of "o-1" "CC-#1" "delivered")]).
Proof.
  destruct (setStatus_accepts_any_status env0 "o-1" "pending"
              (world_of {| c_date := monday; c_counter := 1 |}
                 [order_of "o-1" "CC-#1" "delivered"])
              [order_of "o-1" "CC-#1" "delivered"] [asha])
    as [_ Hfound]; [reflexivity|reflexivity|reflexivity|].
  destruct (Hfound 0%nat (order_of "o-1" "CC-#1" "delivered")) as (w' & Hrun & Hf & _);
    [reflexivity|].
  exists w'. split; [exact Hrun|]. rewrite Hf. apply lookup_insert_eq.
Defined.

(** C3 fails on the code: a delivered order is moved back to pending,
    with a success response and a changed [orders.json]. *)
Lemma delivered_order_reopened :
  ¬ transition_guarded env0 "o-1" "pending"
      (world_of {| c_date := monday; c_counter := 1 |}
         [order_of "o-1" "CC-#1" "delivered"]).
Proof.
  intros Hclaim.
  destruct (Hclaim [order_of "o-1" "CC-#1" "delivered"] 0%nat
              (order_of "o-1" "CC-#1" "delivered")) as [Hcode _];
    [reflexivity|reflexivity|reflexivity|].
  apply Hcode. vm_compute. reflexivity.
Qed.

Lemma cancellable_iff (status : string) :
  cancellable status = true ↔ status = "pending" ∨ status = "confirmed".
Proof.
  unfold cancellable. rewrite bool_decide_eq_true, !elem_of_cons, elem_of_nil.
  tauto.
Qed.

Lemma cancelOrder_refused (e : Env) (id : string) (w : World)
    (os : list Order) (i : nat) (o : Order) :
  files w !! "orders.json" = Some (VOrders os) →
  find_order os id = Some (i, o) →
  cancellable (o_status o) = false →
  cancelOrder e id w = (Json 400 (BError "Order cannot be cancelled at this stage"), w).
Proof.
  intros Hos Hfind Hc. js_unfold. rewrite Hos. simpl. rewrite Hfind. by rewrite Hc.
Qed.

Lemma cancelOrder_done (e : Env) (id : string) (w : World)
    (os : list Order) (i : nat) (o : Order) :
  files w !! "orders.json" = Some (VOrders os) →
  find_order os id = Some (i, o) →
  cancellable (o_status o) = true →
  ∃ w', cancelOrder e id w =
          (Json 200 (BOrder (restamp "cancelled" (nowISO e) o)), w') ∧
        files w' =
          (if write_fails e "orders.json" then files w
           else <["orders.json" := VOrders (<[i := restamp "cancelled" (nowISO e) o]> os)]>
                  (files w)).
Proof.
  intros Hos Hfind Hc. js_unfold. rewrite Hos. simpl. rewrite Hfind, Hc. simpl.
  destruct (write_fails e "orders.json"), (dynamo_fails e); simpl;
    eexists; split; reflexivity.
Qed.

(** C4, as the code has it: for an order that exists, the cancel
    route succeeds exactly when its status is pending or confirmed.  On
    success the order answered and stored has status cancelled and a fresh
    [updatedAt], and a second cancel request is refused.  On refusal
    the answer is 400 and the world is unchanged.  Nothing is said here of
    the status route, which has no such guard. *)
Theorem cancelOrder_only_pending_or_confirmed (e : Env) (id : string) (w : World)
    (os : list Order) (i : nat) (o : Order) :
  files w !! "orders.json" = Some (VOrders os) →
  find_order os id = Some (i, o) →
  write_fails e "orders.json" = false →
  ∃ r w',
    cancelOrder e id w = (r, w') ∧
    (status_code r = 200 ↔ o_status o = "pending" ∨ o_status o = "confirmed") ∧
    (status_code r = 200 →
       r = Json 200 (BOrder (restamp "cancelled" (nowISO e) o)) ∧
       o_status (restamp "cancelled" (nowISO e) o) = "cancelled" ∧
       o_updatedAt (restamp "cancelled" (nowISO e) o) = Some (nowISO e) ∧
       files w' = <["orders.json" :=
                      VOrders (<[i := restamp "cancelled" (nowISO e) o]> os)]> (files w) ∧
       ∀ e', cancelOrder e' id w' =
               (Json 400 (BError "Order cannot be cancelled at this stage"), w')) ∧
    (status_code r ≠ 200 →
       r = Json 400 (BError "Order cannot be cancelled at this stage") ∧ w' = w).
Proof.
  intros Hos Hfind Hw.
  destruct (cancellable (o_status o)) eqn:Hc.
  - destruct (cancelOrder_done e id w os i o Hos Hfind Hc) as (w' & Hrun & Hf).
    rewrite Hw in Hf.
    eexists _, w'. split; [exact Hrun|]. simpl.
    split; [by rewrite <- cancellable_iff|].
    split; [|done]. intros _. do 4 (split; [done|]).
    intros e'.
    apply (cancelOrder_refused e' id w' (<[i := restamp "cancelled" (nowISO e) o]> os)
             i (restamp "cancelled" (nowISO e) o)).
    + rewrite Hf. apply lookup_insert_eq.
    + apply (find_order_insert os id i o); [done|].
      simpl. by apply find_order_id in Hfind as [_ ?].
    + reflexivity.
  - eexists _, w. split; [by eapply cancelOrder_refused|]. simpl.
    split; [|split; [done|done]].
    rewrite <- cancellable_iff, Hc. split; discriminate.
Qed.

Lemma cancelOrder_only_pending_or_confirmed_witness :
  ∃ r w',
    cancelOrder env0 "o-1"
      (world_of {| c_date := monday; c_counter := 1 |}
         [order_of "o-1" "CC-#1" "confirmed"]) = (r, w') ∧
    status_code r = 200 ∧
    files w' !! "orders.json" =
      Some (VOrders [restamp "cancelled" (nowISO env0)
                       (order_of "o-1" "CC-#1" "confirmed")]).
Proof.
  destruct (cancelOrder_only_pending_or_confirmed env0 "o-1"
              (world_of {| c_date := monday; c_counter := 1 |}
                 [order_of "o-1" "CC-#1" "confirmed"])
              [order_of "o-1" "CC-#1" "confirmed"] 0%nat
              (order_of "o-1" "CC-#1" "confirmed"))
    as (r & w' & Hrun & Hiff & Hok & _); [reflexivity|reflexivity|reflexivity|].
  assert (status_code r = 200) as Hcode by (apply Hiff; right; reflexivity).
  destruct (Hok Hcode) as (_ & _ & _ & Hf & _).
  exists r, w'. split; [exact Hrun|]. split; [exact Hcode|].
  rewrite Hf. apply lookup_insert_eq.
Defined.

(** C4 fails on the code in its last part: after a successful
    cancellation, the status route still moves the order to pending. *)
Lemma cancelled_order_reopened :
  ¬ cancelled_is_terminal env0 env0 "o-1" "pending"
      (world_of {| c_date := monday; c_counter := 1 |}
         [order_of "o-1" "CC-#1" "pending"]).
Proof.
  intros Hclaim. apply Hclaim; vm_compute; reflexivity.
Qed.

(** C10: a status request that succeeds changes, in the stored
    collection, at most the [status] and [updatedAt] of the order it found:
    the order answered and the order stored agree with the old one on every
    other field, every other position of the collection holds what it held,
    the collection keeps its length, and every other file is untouched. *)
Theorem setStatus_frame (e : Env) (id status : string) (w w' : World) (r : Response) :
  setStatus e id status w = (r, w') →
  status_code r = 200 →
  ∃ os i o os',
    files w !! "orders.json" = Some (VOrders os) ∧
    find_order os id = Some (i, o) ∧
    r = Json 200 (BOrder (restamp status (nowISO e) o)) ∧
    same_but_status o (restamp status (nowISO e) o) ∧
    files w' !! "orders.json" = Some (VOrders os') ∧
    length os' = length os ∧
    (∀ j, j ≠ i → os' !! j = os !! j) ∧
    (∃ o', os' !! i = Some o' ∧ same_but_status o o') ∧
    (∀ filename, filename ≠ "orders.json" → files w' !! filename = files w !! filename).
Proof.
  intros Hrun Hcode. js_unfold.
  destruct (files w !! "orders.json") as [[os| | | |]|] eqn:Hos; simpl in Hrun;
    try (injection Hrun as <- <-; discriminate).
  destruct (find_order os id) as [[i o]|] eqn:Hfind;
    [|injection Hrun as <- <-; discriminate].
  destruct (find_order_id _ _ _ _ Hfind) as [Hi Hid].
  exists os, i, o.
  destruct (write_fails e "orders.json") eqn:Hw; simpl in Hrun.
  - exists os.
    assert (files w' = files w ∧ r = Json 200 (BOrder (restamp status (nowISO e) o)))
      as [Hf ->].
    { repeat (simpl in Hrun; destruct_innermost Hrun);
        injection Hrun as <- <-; by try discriminate. }
    rewrite Hf. repeat split; try done.
    exists o. split; [done|]. by repeat split.
  - exists (<[i := restamp status (nowISO e) o]> os).
    assert (files w' = <["orders.json" :=
                           VOrders (<[i := restamp status (nowISO e) o]> os)]> (files w) ∧
            r = Json 200 (BOrder (restamp status (nowISO e) o))) as [Hf ->].
    { repeat (simpl in Hrun; destruct_innermost Hrun);
        injection Hrun as <- <-; by try discriminate. }
    rewrite Hf. split; [done|]. split; [done|]. split; [done|].
    split; [apply restamp_same|].
    split; [apply lookup_insert_eq|].
    split; [apply length_insert|].
    split; [intros j Hj; by apply list_lookup_insert_ne|].
    split.
    + exists (restamp status (nowISO e) o).
      split; [|apply restamp_same].
      apply list_lookup_insert_eq. by eapply lookup_lt_Some.
    + intros filename Hne. by apply lookup_insert_ne.
Qed.

Lemma setStatus_frame_witness :
  ∃ os',
    files (setStatus env0 "o-2" "confirmed"
             (world_of {| c_date := monday; c_counter := 2 |}
                [order_of "o-1" "CC-#1" "ready"; order_of "o-2" "CC-#2" "pending"])).2
      !! "orders.json" = Some (VOrders os') ∧
    length os' = 2%nat ∧
    os' !! 0%nat = Some (order_of "o-1" "CC-#1" "ready").
Proof.
  destruct (setStatus_frame env0 "o-2" "confirmed"
              (world_of {| c_date := monday; c_counter := 2 |}
                 [order_of "o-1" "CC-#1" "ready"; order_of "o-2" "CC-#2" "pending"])
              (setStatus env0 "o-2" "confirmed"
                 (world_of {| c_date := monday; c_counter := 2 |}
                    [order_of "o-1" "CC-#1" "ready"; order_of "o-2" "CC-#2" "pending"])).2
              (setStatus env0 "o-2" "confirmed"
                 (world_of {| c_date := monday; c_counter := 2 |}
                    [order_of "o-1" "CC-#1" "ready"; order_of "o-2" "CC-#2" "pending"])).1)
    as (os & i & o & os' & Hos & Hfind & _ & _ & Hos' & Hlen & Hother & _);
    [vm_compute; reflexivity | vm_compute; reflexivity |].
  assert (os = [order_of "o-1" "CC-#1" "ready"; order_of "o-2" "CC-#2" "pending"])
    as -> by (vm_compute in Hos; by injection Hos).
  assert (i = 1%nat) as -> by (vm_compute in Hfind; by injection Hfind).
  exists os'. split; [exact Hos'|]. split; [exact Hlen|].
  by rewrite Hother.
Defined.

(** ** The code of a stored order *)

(** What [POST /api/orders] leaves in the data directory, whatever becomes
    of the owner lookup and of the mail: the bumped counter and the stored
    collection extended, at its end, by the new order, whose [orderId] is the
    code that [generateOrderID] returned. *)
Lemma createOrder_files (e : Env) (req : OrderRequest) (w : World) (os : list Order) :
  files w !! "orders.json" = Some (VOrders os) →
  let counter := bump (today e) (stored_counter w) in
  let order := new_order e req (order_code (c_counter counter)) in
  files (createOrder e req w).2 =
    (if write_fails e "orders.json"
     then λ fs, fs else <["orders.json" := VOrders (os ++ [order])]>)
      ((if write_fails e "order-counter.json"
        then λ fs, fs else <["order-counter.json" := stringify_counter (stored_counter w) counter]>) (files w)).
Proof.
  intros Hos counter order.
  destruct (createOrder_prefix e req w os Hos) as (w3 & Hrun & Hf & _).
  fold counter order in Hf. rewrite <- Hf.
  unfold createOrder, route, createOrder_handler. cbv zeta. rewrite Hrun.
  unfold js_bind, readFromJSON, users_array, sendEmail, console_log, js_ret, throw.
  repeat (simpl; destruct_innermost_goal); simplify_eq/=; done.
Qed.

(** Orders placed one after the other on day [d], from a counter whose next
    value is [k], are stored in request order with the codes
    [CC-#k, CC-#(k+1), ...]. *)
Lemma createOrders_codes (d : string) (requests : list (Env * OrderRequest)) :
  (∀ e req, (e, req) ∈ requests →
     today e = d ∧ write_fails e "orders.json" = false ∧
     write_fails e "order-counter.json" = false) →
  ∀ (w : World) (k : Z) (os : list Order),
    files w !! "orders.json" = Some (VOrders os) →
    counter_object (stored_counter w) →
    bump d (stored_counter w) = {| c_date := d; c_counter := k |} →
    (- 2 ^ 53 < k)%Z → (k + Z.of_nat (length requests) ≤ 2 ^ 53)%Z →
    ∃ new,
      files (createOrders requests w) !! "orders.json" = Some (VOrders (os ++ new)) ∧
      o_orderId <$> new =
        (λ j, order_code (k + Z.of_nat j)) <$> seq 0 (length requests).
Proof.
  induction requests as [|[e req] requests IH]; intros Hreq w k os Hos Hobj Hk Hlo Hhi.
  { exists []. by rewrite app_nil_r. }
  destruct (Hreq e req) as (Hd & Hw1 & Hw2); [left|].
  pose proof (createOrder_files e req w os Hos) as Hf. cbv zeta in Hf.
  rewrite Hw1, Hw2, Hd, Hk, (stringify_counter_object _ _ Hobj) in Hf. simpl in Hf.
  set (order := new_order e req (order_code k)) in Hf.
  cbn [length] in Hhi.
  assert (stored_counter (createOrder e req w).2 =
            VCounter {| c_date := d; c_counter := k |}) as Hstored.
  { unfold stored_counter. rewrite Hf.
    rewrite lookup_insert_ne by done. by rewrite lookup_insert_eq. }
  destruct (IH (λ e' req' Hin, Hreq e' req' (list_elem_of_further _ _ _ Hin))
              (createOrder e req w).2 (k + 1) (os ++ [order])) as (new & Hnew & Hcodes).
  { rewrite Hf. apply lookup_insert_eq. }
  { by rewrite Hstored. }
  { rewrite Hstored. apply bump_next. unfold js_safe. lia. }
  { lia. }
  { lia. }
  exists (order :: new). split.
  - simpl. rewrite Hnew. by rewrite <- (assoc_L (++)).
  - rewrite fmap_cons, Hcodes. cbn [length seq]. rewrite fmap_cons.
    f_equal; [simpl; f_equal; lia|].
    rewrite <- (fmap_S_seq 0), <- list_fmap_compose.
    apply list_fmap_ext. intros _ j _. simpl. f_equal. lia.
Qed.

(** On a fresh day, [n] orders placed one after the other carry the codes
    [CC-#1 .. CC-#n], in the order in which they were placed. *)
Lemma createOrders_first_codes (requests : list (Env * OrderRequest)) (e0 : Env)
    (w : World) (os : list Order) :
  (∀ e req, (e, req) ∈ requests →
     today e = today e0 ∧ write_fails e "orders.json" = false ∧
     write_fails e "order-counter.json" = false) →
  files w !! "orders.json" = Some (VOrders os) →
  fresh_day e0 w →
  (Z.of_nat (length requests) < 2 ^ 53)%Z →
  ∃ new,
    files (createOrders requests w) !! "orders.json" = Some (VOrders (os ++ new)) ∧
    o_orderId <$> new = first_codes (length requests).
Proof.
  intros Hreq Hos Hfresh Hlen.
  destruct (createOrders_codes (today e0) requests Hreq w 1 os Hos) as (new & Hnew & Hcodes).
  { destruct Hfresh as (c & Hc & _). unfold stored_counter. by rewrite Hc. }
  { by apply bump_fresh. }
  { lia. }
  { lia. }
  exists new. split; [done|]. rewrite Hcodes.
  unfold first_codes. rewrite <- (fmap_S_seq 0), <- list_fmap_compose.
  apply list_fmap_ext. intros _ j _. simpl. f_equal. lia.
Qed.

(** ** Scenarios *)

(** Two orders placed on the same day: the second one is [CC-#2]. *)
Example second_order_of_the_day :
  o_orderId <$>
    match files (createOrders [(env0, request_of "u-asha"); (env0, request_of "u-asha")]
                   world0) !! "orders.json" with
    | Some (VOrders os) => os
    | _ => []
    end = ["CC-#1"; "CC-#2"].
Proof. vm_compute. reflexivity. Qed.

(** The first order of the day is answered with status pending, a pickup
    code of four digits and the code [CC-#1]; the owner gets a mail showing
    the pickup code. *)
Example first_order_of_the_day :
  ∃ w', createOrder env0 (request_of "u-asha") world0 =
          (Json 200 (BOrder (new_order env0 (request_of "u-asha") "CC-#1")), w') ∧
        o_status (new_order env0 (request_of "u-asha") "CC-#1") = "pending" ∧
        o_otp (new_order env0 (request_of "u-asha") "CC-#1") = "5271" ∧
        outbox w' = [{| m_to := "asha@campus.example";
                        m_subject := "Order Placed: CC-#1";
                        m_otp := Some "5271" |}].
Proof. eexists. split; [vm_compute; reflexivity|]. by vm_compute. Qed.

(** A status mail carries the upper-cased status, and the pickup code when
    the order becomes ready. *)
Example ready_mail_shows_otp :
  outbox (setStatus env0 "o-1" "ready"
            (world_of {| c_date := monday; c_counter := 1 |}
               [order_of "o-1" "CC-#1" "pending"])).2 =
    [{| m_to := "asha@campus.example"; m_subject := "Order CC-#1 - READY";
        m_otp := Some "4821" |}].
Proof. vm_compute. reflexivity. Qed.

(** An accented status is upper-cased by the runtime's Unicode mapping,
    which may lengthen it. *)
Example accented_status_upper_cased :
  toUpperCase env0 "prêt" = "PRÊT" ∧ toUpperCase env0 "straße" = "STRASSE" ∧
  toUpperCase env0 "Out for delivery" = "OUT FOR DELIVERY".
Proof. repeat split; vm_compute; reflexivity. Qed.

(** At 2^53 the counter no longer moves: the code is given again. *)
Example counter_stuck_at_2_53 :
  (generateOrderID env0
     (world_of {| c_date := monday; c_counter := 2 ^ 53 |} [])).1 =
    Returns "CC-#9007199254740992" ∧
  (generateOrderID env0
     (world_of {| c_date := monday; c_counter := 2 ^ 53 - 1 |} [])).1 =
    Returns "CC-#9007199254740992".
Proof. split; vm_compute; reflexivity. Qed.

Example order_code_zero : order_code 0 = "CC-#0".
Proof. reflexivity. Qed.

Example order_code_twelve : order_code 12 = "CC-#12".
Proof. reflexivity. Qed.

(** With the mirror down, the order is still answered and stored; the one
    rejected [put] is on the console. *)
Example order_placed_with_mirror_down :
  (createOrder (with_dynamo_fails true env0) (request_of "u-asha") world0).1 =
    Json 200 (BOrder (new_order env0 (request_of "u-asha") "CC-#1")) ∧
  dynamo (createOrder (with_dynamo_fails true env0) (request_of "u-asha") world0).2 =
    [{| p_table := "Orders"; p_item := new_order env0 (request_of "u-asha") "CC-#1";
        p_ok := false |}] ∧
  console (createOrder (with_dynamo_fails true env0) (request_of "u-asha") world0).2 =
    [ErrDynamo "Orders"; EmailSent "asha@campus.example"].
Proof. repeat split; vm_compute; reflexivity. Qed.

(** * Further properties *)

(** ** The allocator, call after call *)

Lemma generateOrderID_code (e : Env) (w : World) :
  ∃ w', generateOrderID e w =
          (Returns (order_code (next_counter e (stored_counter w))), w') ∧
        files w' =
          (if write_fails e "order-counter.json" then files w
           else <["order-counter.json" :=
                    stringify_counter (stored_counter w)
                      (bump (today e) (stored_counter w))]> (files w)) ∧
        dynamo w' = dynamo w ∧ outbox w' = outbox w.
Proof.
  destruct (generateOrderID_run e w) as (w1 & _ & Hf1 & Hd1 & Ho1 & ->).
  destruct (saveToJSON_effect e "order-counter.json"
              (stringify_counter (stored_counter w)
                 (bump (today e) (stored_counter w))) w1)
    as (w2 & Hs & Hf2 & Hd2 & Ho2 & _).
  simpl. rewrite Hs. exists w2. split; [done|].
  rewrite Hf2, Hf1, Hd2, Hd1, Ho2, Ho1. done.
Qed.

Lemma order_code_one : order_code 1 = "CC-#1".
Proof. reflexivity. Qed.




(** X3: when the write of the counter is rejected, [generateOrderID] still
    returns its code, the counter file is as before, and the next call of the
    same day returns the same code again. *)
Theorem generateOrderID_rejected_write_repeats (e1 e2 : Env) (w : World) :
  write_fails e1 "order-counter.json" = true →
  today e2 = today e1 →
  ∃ code w1,
    generateOrderID e1 w = (Returns code, w1) ∧
    files w1 = files w ∧
    (generateOrderID e2 w1).1 = Returns code.
Proof.
  intros Hw Hd.
  destruct (generateOrderID_code e1 w) as (w1 & Hrun1 & Hf1 & _).
  destruct (generateOrderID_code e2 w1) as (w2 & Hrun2 & _).
  rewrite Hw in Hf1.
  eexists _, w1. split; [exact Hrun1|]. split; [exact Hf1|].
  rewrite Hrun2. simpl. unfold next_counter, stored_counter. by rewrite Hf1, Hd.
Qed.

Lemma generateOrderID_rejected_write_repeats_witness :
  ∃ code w1,
    generateOrderID env_readonly world0 = (Returns code, w1) ∧
    files w1 = files world0 ∧
    (generateOrderID env0 w1).1 = Returns code.
Proof.
  apply (generateOrderID_rejected_write_repeats env_readonly env0 world0);
    reflexivity.
Defined.

(** X4: when the counter file cannot be read, [generateOrderID] logs the
    read error, returns [CC-#1] whatever had been allocated before, and
    writes a counter file for today holding 1. *)
Theorem generateOrderID_lost_counter (e : Env) (w : World) :
  files w !! "order-counter.json" = None →
  write_fails e "order-counter.json" = false →
  generateOrderID e w =
    (Returns "CC-#1",
     {| files := <["order-counter.json" :=
                     VCounter {| c_date := today e; c_counter := 1 |}]> (files w);
        dynamo := dynamo w;
        console := console w ++ [ErrReading "order-counter.json"];
        outbox := outbox w |}).
Proof.
  intros Hnone Hw. unfold generateOrderID.
  rewrite (js_bind_returns _ _ _ _ _ (readFromJSON_None _ _ Hnone)).
  simpl. unfold js_bind. by rewrite saveToJSON_ok.
Qed.

Lemma generateOrderID_lost_counter_witness :
  (generateOrderID env0
     {| files := {[ "orders.json" := VOrders [order_of "o-1" "CC-#7" "ready"] ]};
        dynamo := []; console := []; outbox := [] |}).1 = Returns "CC-#1".
Proof.
  rewrite (generateOrderID_lost_counter env0
             {| files := {[ "orders.json" := VOrders [order_of "o-1" "CC-#7" "ready"] ]};
                dynamo := []; console := []; outbox := [] |});
    [reflexivity | reflexivity | reflexivity].
Defined.

(** X23: on a counter file that holds an array, [generateOrderID] sets
    [date] and [counter] on the array, which [JSON.stringify] does not write:
    the call returns [CC-#1] and leaves every file as it was, so that every
    later call returns [CC-#1] again. *)
Theorem generateOrderID_array_counter (e : Env) (w : World) :
  ¬ counter_object (stored_counter w) →
  ∃ w',
    generateOrderID e w = (Returns "CC-#1", w') ∧
    files w' = files w ∧
    ¬ counter_object (stored_counter w') ∧
    dynamo w' = dynamo w ∧ outbox w' = outbox w.
Proof.
  intros Harr.
  destruct (generateOrderID_code e w) as (w1 & Hrun & Hf1 & Hd1 & Ho1).
  assert (∃ v, files w !! "order-counter.json" = Some v ∧
               stored_counter w = v ∧
               ∀ c, stringify_counter v c = v ∧ c_counter (bump (today e) v) = 1)
    as (v & Hv & Hstored & Hkeep).
  { unfold stored_counter in *.
    destruct (files w !! "order-counter.json") as [v|]; simpl in *; [|by destruct Harr].
    exists v. split; [done|]. split; [done|].
    intros c. by destruct v; simpl in *; try (by destruct Harr). }
  assert (files w1 = files w) as Hfiles.
  { rewrite Hf1. destruct (write_fails e "order-counter.json"); [done|].
    rewrite Hstored, (proj1 (Hkeep _)). by apply insert_id. }
  exists w1. split; [|split; [done|split; [|done]]].
  - rewrite Hrun. unfold next_counter. by rewrite Hstored, (proj2 (Hkeep (bump (today e) v))).
  - unfold stored_counter in *. by rewrite Hfiles.
Qed.

Lemma generateOrderID_array_counter_witness :
  ∃ w1 w2,
    generateOrderID env0
      {| files := {[ "order-counter.json" := VEmptyArray ]};
         dynamo := []; console := []; outbox := [] |} = (Returns "CC-#1", w1) ∧
    generateOrderID env0 w1 = (Returns "CC-#1", w2).
Proof.
  destruct (generateOrderID_array_counter env0
              {| files := {[ "order-counter.json" := VEmptyArray ]};
                 dynamo := []; console := []; outbox := [] |})
    as (w1 & Hrun1 & _ & Harr1 & _); [intros H; exact H|].
  destruct (generateOrderID_array_counter env0 w1 Harr1) as (w2 & Hrun2 & _).
  exists w1, w2. split; [exact Hrun1|exact Hrun2].
Defined.

(** ** Allocations under any schedule *)

Lemma resolved_count_cons (a : Alloc) (pool : list Alloc) :
  resolved_count (a :: pool) =
    ((if is_resolved a then 1 else 0) + resolved_count pool)%nat.
Proof.
  unfold resolved_count. destruct (is_resolved a) eqn:Ha.
  - by rewrite filter_cons_True.
  - rewrite filter_cons_False; [done|]. by rewrite Ha.
Qed.

Lemma resolved_count_insert (pool : list Alloc) (i : nat) (a a' : Alloc) :
  pool !! i = Some a →
  (resolved_count (<[i := a']> pool) + (if is_resolved a then 1 else 0) =
   resolved_count pool + (if is_resolved a' then 1 else 0))%nat.
Proof.
  revert i. induction pool as [|a0 pool IH]; intros i Hi; [done|].
  destruct i as [|i]; simpl in Hi.
  - injection Hi as ->. simpl. rewrite !resolved_count_cons. lia.
  - simpl. rewrite !resolved_count_cons. specialize (IH i Hi). lia.
Qed.

Lemma resolved_count_le (pool : list Alloc) :
  (resolved_count pool ≤ length pool)%nat.
Proof. apply length_filter. Qed.

Lemma resolved_count_replicate (n : nat) : resolved_count (replicate n Called) = 0%nat.
Proof.
  induction n as [|n IH]; [done|]. simpl. by rewrite resolved_count_cons, IH.
Qed.

Lemma next_counter_written (e : Env) (v : JsValue) :
  next_counter e (VCounter (bump (today e) v)) = js_incr (next_counter e v).
Proof.
  unfold next_counter. simpl. rewrite bump_date.
  by rewrite bool_decide_eq_false_2 by (intros H; by apply H).
Qed.

Lemma counter_within_written (e : Env) (returned : nat) (v : JsValue) :
  counter_within e returned v →
  counter_within e (S returned) (stringify_counter v (bump (today e) v)).
Proof.
  intros (Hobj & Hk & Hmax).
  rewrite (stringify_counter_object _ _ Hobj). split; [done|].
  rewrite next_counter_written.
  destruct (js_incr_bounds (next_counter e v)) as [? ?]; lia.
Qed.

Lemma counter_within_mono (e : Env) (returned returned' : nat) (v : JsValue) :
  (returned ≤ returned')%nat →
  counter_within e returned v → counter_within e returned' v.
Proof. intros Hle (Hobj & Hk & Hmax). split; [done|]. split; lia. Qed.

Lemma resume_inv (e : Env) (i : nat) (pool : list Alloc) (w : World) :
  write_fails e "order-counter.json" = false →
  alloc_inv e pool w →
  ∃ pool' w', resume e i pool w = (Returns pool', w') ∧
              length pool' = length pool ∧ alloc_inv e pool' w'.
Proof.
  intros Hw (Hstored & Hloaded & Hcodes). unfold resume.
  destruct (pool !! i) as [[|v|c]|] eqn:Hi.
  - (* the call reads the counter file *)
    destruct (readFromJSON_files "order-counter.json" w) as (w1 & Hr & Hf & _).
    fold (stored_counter w) in Hr.
    assert (stored_counter w1 = stored_counter w) as Hsame
      by (unfold stored_counter; by rewrite Hf).
    pose proof (resolved_count_insert pool i Called (Loaded (stored_counter w)) Hi) as HR.
    simpl in HR. rewrite !Nat.add_0_r in HR.
    eexists _, w1. unfold alloc_step, js_bind, js_ret. rewrite Hr.
    split; [done|]. split; [apply length_insert|].
    unfold alloc_inv. rewrite HR, Hsame. split; [done|]. split.
    + intros j v Hj. destruct (decide (i = j)) as [<-|Hne].
      * rewrite list_lookup_insert_eq in Hj by (by eapply lookup_lt_Some).
        by injection Hj as <-.
      * rewrite list_lookup_insert_ne in Hj by done. by eapply Hloaded.
    + intros j c Hj. destruct (decide (i = j)) as [<-|Hne].
      * rewrite list_lookup_insert_eq in Hj by (by eapply lookup_lt_Some).
        discriminate.
      * rewrite list_lookup_insert_ne in Hj by done. by eapply Hcodes.
  - (* the call writes the counter file and returns *)
    pose proof (Hloaded i v Hi) as Hv.
    destruct Hv as (Hobj & [Hlo Hhi] & Hmax).
    pose proof (resolved_count_insert pool i (Loaded v)
                  (Resolved (order_code (next_counter e v))) Hi) as HR.
    simpl in HR. rewrite Nat.add_0_r in HR.
    unfold alloc_step, js_bind, js_ret. rewrite saveToJSON_ok by done.
    eexists _, _. split; [done|]. split; [apply length_insert|].
    unfold alloc_inv. fold (next_counter e v). rewrite HR.
    split; [|split].
    + unfold stored_counter. simpl. rewrite lookup_insert_eq. simpl.
      rewrite Nat.add_1_r. apply counter_within_written, (Hloaded i v Hi).
    + intros j v' Hj. destruct (decide (i = j)) as [<-|Hne].
      * rewrite list_lookup_insert_eq in Hj by (by eapply lookup_lt_Some).
        discriminate.
      * rewrite list_lookup_insert_ne in Hj by done.
        apply (counter_within_mono e (resolved_count pool)); [lia|].
        by eapply Hloaded.
    + intros j c Hj. destruct (decide (i = j)) as [<-|Hne].
      * rewrite list_lookup_insert_eq in Hj by (by eapply lookup_lt_Some).
        injection Hj as <-. exists (next_counter e v). split; [done|]. lia.
      * rewrite list_lookup_insert_ne in Hj by done.
        destruct (Hcodes j c Hj) as (k & -> & Hk). exists k. split; [done|]. lia.
  - (* the call had returned already *)
    exists pool, w. unfold alloc_step, js_bind, js_ret. rewrite list_insert_id by done.
    split; [done|]. split; [done|]. exact (conj Hstored (conj Hloaded Hcodes)).
  - exists pool, w. split; [done|]. split; [done|].
    exact (conj Hstored (conj Hloaded Hcodes)).
Qed.

Lemma interleave_inv (e : Env) (schedule : list nat) :
  write_fails e "order-counter.json" = false →
  ∀ (pool : list Alloc) (w : World),
    alloc_inv e pool w →
    ∃ pool' w', interleave e schedule pool w = (Returns pool', w') ∧
                length pool' = length pool ∧ alloc_inv e pool' w'.
Proof.
  intros Hw. induction schedule as [|i schedule IH]; intros pool w Hinv.
  { by exists pool, w. }
  destruct (resume_inv e i pool w Hw Hinv) as (pool1 & w1 & Hrun1 & Hlen1 & Hinv1).
  destruct (IH pool1 w1 Hinv1) as (pool' & w' & Hrun & Hlen & Hinv').
  exists pool', w'. split; [|split; [congruence|done]].
  simpl. by rewrite (js_bind_returns _ _ _ _ _ Hrun1).
Qed.

(** X5: however the event loop interleaves [n] calls of [generateOrderID]
    on a fresh day (complete schedule or not, overlapping or not), the run
    never throws and every call that has returned holds a code numbered
    between 1 and the number of calls that have returned, hence at most [n]:
    overlap repeats codes, it never skips ahead. *)
Theorem interleaved_codes_bounded (e : Env) (w : World) (n : nat) (schedule : list nat) :
  fresh_day e w →
  write_fails e "order-counter.json" = false →
  ∃ pool w',
    interleave e schedule (replicate n Called) w = (Returns pool, w') ∧
    length pool = n ∧
    ∀ i code, pool !! i = Some (Resolved code) →
      ∃ k, code = order_code k ∧
           (1 ≤ k ≤ Z.of_nat (resolved_count pool))%Z ∧ (k ≤ Z.of_nat n)%Z.
Proof.
  intros Hfresh Hw.
  destruct (interleave_inv e schedule Hw (replicate n Called) w) as
    (pool & w' & Hrun & Hlen & _ & _ & Hcodes).
  { unfold alloc_inv, counter_within. rewrite resolved_count_replicate.
    unfold next_counter. rewrite (bump_fresh e w Hfresh). simpl.
    split.
    { split; [|lia]. destruct Hfresh as (c & Hc & _).
      unfold stored_counter. by rewrite Hc. }
    split.
    - intros i v Hi. apply lookup_replicate in Hi as [? _]. discriminate.
    - intros i c Hi. apply lookup_replicate in Hi as [? _]. discriminate. }
  rewrite length_replicate in Hlen.
  exists pool, w'. split; [done|]. split; [done|].
  intros i code Hi. destruct (Hcodes i code Hi) as (k & -> & Hk).
  exists k. split; [done|]. split; [done|].
  pose proof (resolved_count_le pool). lia.
Qed.

Lemma interleaved_codes_bounded_witness :
  ∃ pool w',
    interleave env0 [0; 1; 2; 1; 0; 2]%nat (replicate 3 Called) world0 = (Returns pool, w') ∧
    length pool = 3%nat ∧
    ∀ i code, pool !! i = Some (Resolved code) →
      ∃ k, code = order_code k ∧
           (1 ≤ k ≤ Z.of_nat (resolved_count pool))%Z ∧ (k ≤ Z.of_nat 3)%Z.
Proof.
  apply (interleaved_codes_bounded env0 world0 3 [0; 1; 2; 1; 0; 2]%nat).
  - exists {| c_date := monday; c_counter := 0 |}. split; [reflexivity|]. by right.
  - reflexivity.
Defined.

(** ** Listing with filters *)

Lemma filter_all {A} (P : A → Prop) `{!∀ x, Decision (P x)} (l : list A) :
  (∀ x, P x) → filter P l = l.
Proof.
  intros HP. induction l as [|x l IH]; [done|].
  by rewrite filter_cons_True, IH.
Qed.

Lemma filter_if_run (x : option string) (field : Order → string)
    (l : list Order) (w : World) :
  filter_if x field (VOrders l) w =
    (Returns (VOrders (filter (λ o, passes x (field o)) l)), w).
Proof.
  unfold filter_if.
  destruct x as [s|]; [case_bool_decide as Hs|].
  - subst s. unfold js_ret. rewrite filter_all; [done|].
    intros o. by unfold passes.
  - simpl. unfold js_bind, js_ret. do 3 f_equal.
    apply list_filter_iff. intros o. unfold passes. simpl.
    by rewrite bool_decide_eq_false_2.
  - unfold js_ret. rewrite filter_all; [done|]. intros o. by unfold passes.
Qed.

Lemma filter_selected (q : OrderQuery) (os : list Order) :
  filter (λ o, passes (q_status q) (o_status o))
    (filter (λ o, passes (q_adminId q) (o_adminId o))
       (filter (λ o, passes (q_userId q) (o_userId o)) os)) =
  filter (selected q) os.
Proof.
  rewrite !list_filter_filter. apply list_filter_iff.
  intros o. unfold selected. tauto.
Qed.

Lemma listOrders_run (q : OrderQuery) (w : World) (os : list Order) (us : list User) :
  files w !! "orders.json" = Some (VOrders os) →
  files w !! "users.json" = Some (VUsers us) →
  listOrders q w = (JsonOrders (reverse (enrich us <$> filter (selected q) os)), w).
Proof.
  intros Hos Hus. unfold listOrders. apply route_returns. unfold listOrders_handler.
  rewrite (js_bind_returns _ _ _ _ _ (readFromJSON_Some _ _ _ Hos)).
  rewrite (js_bind_returns _ _ _ _ _ (filter_if_run _ _ _ _)).
  rewrite (js_bind_returns _ _ _ _ _ (filter_if_run _ _ _ _)).
  rewrite (js_bind_returns _ _ _ _ _ (filter_if_run _ _ _ _)).
  rewrite (js_bind_returns _ _ _ _ _ (readFromJSON_Some _ _ _ Hus)).
  rewrite filter_selected.
  simpl orders_array. unfold js_bind at 1, js_ret at 1.
  destruct (filter (selected q) os) as [|o l]; [done|].
  simpl users_array. by unfold js_bind, js_ret.
Qed.

(** X6: the three query parameters of [GET /api/orders] act as one
    conjunction, a parameter that is absent or the empty string filtering
    nothing: the answer is exactly the stored orders that pass every given
    parameter, each with its owner's display fields, latest stored first, and
    the world is left as it was. *)
Theorem listOrders_filters (q : OrderQuery) (w : World) (os : list Order) (us : list User) :
  files w !! "orders.json" = Some (VOrders os) →
  files w !! "users.json" = Some (VUsers us) →
  ∃ listed,
    listOrders q w = (JsonOrders listed, w) ∧
    l_order <$> listed = reverse (filter (selected q) os) ∧
    (∀ o, o ∈ l_order <$> listed ↔
          o ∈ os ∧
          (∀ s, q_userId q = Some s → s ≠ "" → o_userId o = s) ∧
          (∀ s, q_adminId q = Some s → s ≠ "" → o_adminId o = s) ∧
          (∀ s, q_status q = Some s → s ≠ "" → o_status o = s)) ∧
    (∀ lo, lo ∈ listed → lo = enrich us (l_order lo)) ∧
    (∀ lo u, lo ∈ listed → first_user_with_id us (o_userId (l_order lo)) u →
             l_userName lo = or_default (u_name u) "Unknown" ∧
             l_userPhone lo = or_default (u_phone u) "N/A") ∧
    (∀ lo, lo ∈ listed → (∀ u, u ∈ us → u_id u ≠ o_userId (l_order lo)) →
           l_userName lo = "Unknown" ∧ l_userPhone lo = "N/A").
Proof.
  intros Hos Hus. eexists. split; [by apply listOrders_run|].
  assert (l_order <$> reverse (enrich us <$> filter (selected q) os) =
          reverse (filter (selected q) os)) as Horders.
  { rewrite <- fmap_reverse, <- list_fmap_compose.
    by rewrite (list_fmap_ext (l_order ∘ enrich us) id _), list_fmap_id. }
  split; [done|]. split.
  - intros o. rewrite Horders, elem_of_reverse, list_elem_of_filter.
    assert (∀ x v, passes x v ↔ ∀ s, x = Some s → s ≠ "" → v = s) as Hpasses.
    { intros x v. unfold passes. destruct x as [s|]; simpl.
      - case_bool_decide as Hs; [naive_solver|]. split; [naive_solver|].
        intros H. by apply H.
      - naive_solver. }
    unfold selected. rewrite !Hpasses. tauto.
  - split; [|split].
    + intros lo. rewrite elem_of_reverse. intros (o & -> & _)%list_elem_of_fmap. done.
    + intros lo u. rewrite elem_of_reverse. intros (o & -> & _)%list_elem_of_fmap Hu.
      simpl in Hu. by rewrite (enrich_first us o u Hu).
    + intros lo. rewrite elem_of_reverse. intros (o & -> & _)%list_elem_of_fmap Hnone.
      simpl in Hnone. by rewrite (enrich_unknown us o Hnone).
Qed.

Lemma listOrders_filters_witness :
  ∃ listed,
    listOrders {| q_userId := Some ""; q_adminId := None; q_status := Some "ready" |}
      (world_of {| c_date := monday; c_counter := 3 |}
         [order_of "o-1" "CC-#1" "ready"; order_of "o-2" "CC-#2" "pending";
          order_of "o-3" "CC-#3" "ready"]) =
      (JsonOrders listed,
       world_of {| c_date := monday; c_counter := 3 |}
         [order_of "o-1" "CC-#1" "ready"; order_of "o-2" "CC-#2" "pending";
          order_of "o-3" "CC-#3" "ready"]) ∧
    l_order <$> listed =
      [order_of "o-3" "CC-#3" "ready"; order_of "o-1" "CC-#1" "ready"] ∧
    (∀ lo, lo ∈ listed → l_userName lo = "Asha" ∧ l_userPhone lo = "9000000001").
Proof.
  destruct (listOrders_filters
              {| q_userId := Some ""; q_adminId := None; q_status := Some "ready" |}
              (world_of {| c_date := monday; c_counter := 3 |}
                 [order_of "o-1" "CC-#1" "ready"; order_of "o-2" "CC-#2" "pending";
                  order_of "o-3" "CC-#3" "ready"])
              [order_of "o-1" "CC-#1" "ready"; order_of "o-2" "CC-#2" "pending";
               order_of "o-3" "CC-#3" "ready"] [asha])
    as (listed & Hrun & Horders & Hin & _ & Howner & _); [reflexivity|reflexivity|].
  exists listed. split; [exact Hrun|]. split; [rewrite Horders; reflexivity|].
  intros lo Hlo. apply (Howner lo asha Hlo).
  assert (l_order lo ∈ l_order <$> listed) as Ho
    by (apply list_elem_of_fmap; by exists lo).
  apply Hin in Ho as [Ho _].
  exists 0%nat. split; [reflexivity|]. split; [|intros j' u' Hlt; lia].
  apply elem_of_cons in Ho as [->|Ho]; [reflexivity|].
  apply elem_of_cons in Ho as [->|Ho]; [reflexivity|].
  apply list_elem_of_singleton in Ho as ->. reflexivity.
Defined.

(** ** What listing never does *)

Section ReadOnly.
Context {A B : Type}.

Lemma read_only_ret (a : A) : read_only (js_ret a).
Proof. intros w. by repeat split. Qed.

Lemma read_only_throw (msg : string) : read_only (@throw A msg).
Proof. intros w. by repeat split. Qed.

Lemma read_only_bind (m : Js A) (k : A → Js B) :
  read_only m → (∀ a, read_only (k a)) → read_only (js_bind m k).
Proof.
  intros Hm Hk w. unfold js_bind. specialize (Hm w).
  destruct (m w) as [[a|msg] w1]; simpl in *; [|done].
  destruct Hm as (Hf & Hd & Ho & Hc).
  destruct (Hk a w1) as (Hf' & Hd' & Ho' & Hc').
  rewrite Hf', Hd', Ho', Hf, Hd, Ho. repeat split. by etrans.
Qed.
End ReadOnly.

Lemma read_only_read (filename : string) : read_only (readFromJSON filename).
Proof.
  intros w. unfold readFromJSON. destruct (files w !! filename); simpl.
  - by repeat split.
  - repeat split. by apply prefix_app_r.
Qed.

Lemma read_only_orders_array (method : string) (v : JsValue) :
  read_only (orders_array method v).
Proof. destruct v; apply read_only_ret || apply read_only_throw. Qed.

Lemma read_only_users_array (method : string) (v : JsValue) :
  read_only (users_array method v).
Proof. destruct v; apply read_only_ret || apply read_only_throw. Qed.

Lemma read_only_filter_if (x : option string) (field : Order → string) (v : JsValue) :
  read_only (filter_if x field v).
Proof.
  unfold filter_if. destruct x as [s|]; [case_bool_decide|]; try apply read_only_ret.
  apply read_only_bind; [apply read_only_orders_array|intros ?; apply read_only_ret].
Qed.

Lemma read_only_listOrders (q : OrderQuery) : read_only (listOrders_handler q).
Proof.
  unfold listOrders_handler.
  repeat first
    [ apply read_only_bind; [|intros ?]
    | apply read_only_read
    | apply read_only_filter_if
    | apply read_only_orders_array
    | apply read_only_users_array
    | apply read_only_ret
    | match goal with |- read_only (match ?l with _ => _ end) => destruct l end ].
Qed.

(** X7: [GET /api/orders] is read-only.  For every query and every world,
    whether it answers the listing or an error, it leaves the data directory,
    the mirror and the outbox untouched; all it may do is append read errors
    to the console. *)
Theorem listOrders_read_only (q : OrderQuery) (w : World) :
  files (listOrders q w).2 = files w ∧
  dynamo (listOrders q w).2 = dynamo w ∧
  outbox (listOrders q w).2 = outbox w ∧
  console w `prefix_of` console (listOrders q w).2 ∧
  (∀ l, l ∈ console (listOrders q w).2 → l ∈ console w ∨
        l = ErrReading "orders.json" ∨ l = ErrReading "users.json").
Proof.
  pose proof (read_only_listOrders q w) as (Hf & Hd & Ho & Hc).
  assert ((listOrders q w).2 = (listOrders_handler q w).2) as Hw.
  { unfold listOrders, route. by destruct (listOrders_handler q w) as [[?|?] ?]. }
  rewrite Hw. do 4 (split; [done|]).
  clear. unfold listOrders_handler, filter_if, orders_array, users_array,
    js_bind, readFromJSON, console_log, js_ret, throw.
  intros l.
  repeat (simpl; destruct_innermost_goal); simpl;
    rewrite ?elem_of_app, ?list_elem_of_singleton; tauto.
Qed.

(** ** What the status and cancel routes write *)

Lemma cancelOrder_orders (e : Env) (id : string) (w : World) (os : list Order) :
  files w !! "orders.json" = Some (VOrders os) →
  files (cancelOrder e id w).2 !! "orders.json" = Some (VOrders os) ∨
  ∃ i o, find_order os id = Some (i, o) ∧ cancellable (o_status o) = true ∧
         files (cancelOrder e id w).2 !! "orders.json" =
           Some (VOrders (<[i := restamp "cancelled" (nowISO e) o]> os)).
Proof.
  intros Hos. js_unfold. rewrite Hos. simpl.
  destruct (find_order os id) as [[i o]|] eqn:Hfind; simpl; [|by left].
  destruct (cancellable (o_status o)) eqn:Hc; simpl; [|by left].
  destruct (write_fails e "orders.json"), (dynamo_fails e); simpl;
    try (by left); right; exists i, o; by rewrite lookup_insert_eq.
Qed.

Lemma setStatus_orders (e : Env) (id status : string) (w : World) (os : list Order) :
  files w !! "orders.json" = Some (VOrders os) →
  files (setStatus e id status w).2 !! "orders.json" = Some (VOrders os) ∨
  ∃ i o, find_order os id = Some (i, o) ∧
         files (setStatus e id status w).2 !! "orders.json" =
           Some (VOrders (<[i := restamp status (nowISO e) o]> os)).
Proof.
  intros Hos. js_unfold. rewrite Hos. simpl.
  destruct (find_order os id) as [[i o]|] eqn:Hfind; simpl; [|by left].
  destruct (write_fails e "orders.json") eqn:Hw; [left|right; exists i, o; split; [done|]];
    repeat (simpl; destruct_innermost_goal); simpl;
    rewrite ?lookup_insert_eq; done.
Qed.

(** X8: the cancel route never sends a mail and never touches a file other
    than [orders.json]; and whenever it answers anything but success (unknown
    id, order past confirmation, unreadable collection), the data directory
    and the mirror are exactly as before. *)
Theorem cancelOrder_refusal_changes_nothing (e : Env) (id : string) (w : World) :
  outbox (cancelOrder e id w).2 = outbox w ∧
  (∀ other, other ≠ "orders.json" →
            files (cancelOrder e id w).2 !! other = files w !! other) ∧
  (status_code (cancelOrder e id w).1 ≠ 200 →
   files (cancelOrder e id w).2 = files w ∧ dynamo (cancelOrder e id w).2 = dynamo w).
Proof.
  js_unfold.
  repeat (simpl; destruct_innermost_goal); simpl;
    (split; [done|]); (split; [intros; by rewrite ?lookup_insert_ne by done|]);
    intros; done.
Qed.

(** X9: the status route writes before it looks the owner up.  When
    [users.json] cannot be read, a status request for an existing order is
    answered with error 500, yet the order stored has already taken the
    requested status and the mirror write has been issued. *)
Theorem setStatus_fails_after_write (e : Env) (id status : string) (w : World)
    (os : list Order) (i : nat) (o : Order) :
  files w !! "orders.json" = Some (VOrders os) →
  find_order os id = Some (i, o) →
  files w !! "users.json" = None →
  write_fails e "orders.json" = false →
  ∃ w', setStatus e id status w =
          (Json 500 (BError "users.find is not a function"), w') ∧
        files w' !! "orders.json" =
          Some (VOrders (<[i := restamp status (nowISO e) o]> os)) ∧
        dynamo w' = dynamo w ++ [{| p_table := ORDERS_TABLE e;
                                    p_item := restamp status (nowISO e) o;
                                    p_ok := negb (dynamo_fails e) |}] ∧
        outbox w' = outbox w.
Proof.
  intros Hos Hfind Hus Hw. js_unfold. rewrite Hos. simpl. rewrite Hfind, Hw.
  destruct (dynamo_fails e); simpl;
    rewrite lookup_insert_ne by done; rewrite Hus; simpl;
    eexists; (split; [reflexivity|]); simpl; by rewrite lookup_insert_eq.
Qed.

Lemma setStatus_fails_after_write_witness :
  ∃ w', setStatus env0 "o-1" "delivered"
          {| files := {[ "orders.json" := VOrders [order_of "o-1" "CC-#1" "ready"] ]};
             dynamo := []; console := []; outbox := [] |} =
          (Json 500 (BError "users.find is not a function"), w') ∧
        files w' !! "orders.json" =
          Some (VOrders [restamp "delivered" (nowISO env0)
                           (order_of "o-1" "CC-#1" "ready")]).
Proof.
  destruct (setStatus_fails_after_write env0 "o-1" "delivered"
              {| files := {[ "orders.json" := VOrders [order_of "o-1" "CC-#1" "ready"] ]};
                 dynamo := []; console := []; outbox := [] |}
              [order_of "o-1" "CC-#1" "ready"] 0%nat (order_of "o-1" "CC-#1" "ready"))
    as (w' & Hrun & Hf & _); [reflexivity|reflexivity|reflexivity|reflexivity|].
  exists w'. split; [exact Hrun|exact Hf].
Defined.

Lemma setStatus_effects (e : Env) (id status : string) (w : World)
    (os : list Order) (us : list User) (i : nat) (o : Order) :
  files w !! "orders.json" = Some (VOrders os) →
  files w !! "users.json" = Some (VUsers us) →
  find_order os id = Some (i, o) →
  ∃ w', setStatus e id status w =
          (Json 200 (BOrder (restamp status (nowISO e) o)), w') ∧
        dynamo w' = dynamo w ++ [{| p_table := ORDERS_TABLE e;
                                    p_item := restamp status (nowISO e) o;
                                    p_ok := negb (dynamo_fails e) |}] ∧
        outbox w' = outbox w ++
          match find_user us (o_userId o) with
          | Some u => if u_notifications u && negb (brevo_fails e)
                      then [status_mail e status o u] else []
          | None => []
          end.
Proof.
  intros Hos Hus Hfind. js_unfold. rewrite Hos. simpl. rewrite Hfind.
  destruct (write_fails e "orders.json"), (dynamo_fails e); simpl;
    rewrite ?lookup_insert_ne by done; rewrite Hus; simpl;
    destruct (find_user us (o_userId o)) as [u|]; simpl;
    try destruct (u_notifications u); try destruct (brevo_fails e); simpl;
    eexists; (split; [reflexivity|]); simpl; by rewrite ?app_nil_r.
Qed.

(** X10: the mail of the status route.  A status request that succeeds sends
    at most one mail: one to the owner's address when the owner exists, has
    notifications on and the mail service accepts it, none otherwise.  Its
    subject carries the order code and the status as [toUpperCase] gives it
    (the letters a-z mapped to A-Z on an ASCII status, the runtime's Unicode
    upper-casing otherwise), and it shows the pickup code exactly when the
    requested status is ready. *)
Theorem setStatus_mail (e : Env) (id status : string) (w : World)
    (os : list Order) (us : list User) (i : nat) (o : Order) :
  files w !! "orders.json" = Some (VOrders os) →
  files w !! "users.json" = Some (VUsers us) →
  find_order os id = Some (i, o) →
  ∃ sent,
    outbox (setStatus e id status w).2 = outbox w ++ sent ∧
    (sent = [] ∨
     ∃ u, find_user us (o_userId o) = Some u ∧ u_notifications u = true ∧
          brevo_fails e = false ∧
          sent = [{| m_to := u_email u;
                     m_subject := "Order " +:+ o_orderId o +:+ " - " +:+ toUpperCase e status;
                     m_otp := if bool_decide (status = "ready")
                              then Some (o_otp o) else None |}]) ∧
    (∀ u, find_user us (o_userId o) = Some u → u_notifications u = true →
          brevo_fails e = false → sent ≠ []).
Proof.
  intros Hos Hus Hfind.
  destruct (setStatus_effects e id status w os us i o Hos Hus Hfind)
    as (w' & Hrun & _ & Hout).
  rewrite Hrun. simpl. eexists. split; [exact Hout|].
  destruct (find_user us (o_userId o)) as [u|]; [|split; [by left|by intros]].
  destruct (u_notifications u) eqn:Hn, (brevo_fails e) eqn:Hb; simpl.
  - split; [by left|]. intros u0 _ _ H. discriminate H.
  - split; [right; by exists u|]. by intros.
  - split; [by left|]. intros u0 [= <-] H. rewrite Hn in H. discriminate H.
  - split; [by left|]. intros u0 [= <-] H. rewrite Hn in H. discriminate H.
Qed.

Lemma setStatus_mail_witness :
  ∃ sent,
    outbox (setStatus env0 "o-1" "ready"
              (world_of {| c_date := monday; c_counter := 1 |}
                 [order_of "o-1" "CC-#1" "preparing"])).2 = [] ++ sent ∧
    sent = [{| m_to := "asha@campus.example"; m_subject := "Order CC-#1 - READY";
               m_otp := Some "4821" |}].
Proof.
  destruct (setStatus_mail env0 "o-1" "ready"
              (world_of {| c_date := monday; c_counter := 1 |}
                 [order_of "o-1" "CC-#1" "preparing"])
              [order_of "o-1" "CC-#1" "preparing"] [asha] 0%nat
              (order_of "o-1" "CC-#1" "preparing"))
    as (sent & Hout & Hshape & Hsent); [reflexivity|reflexivity|reflexivity|].
  exists sent. split; [exact Hout|].
  destruct Hshape as [Hnil | (u & Hu & _ & _ & Hone)].
  - destruct (Hsent asha); [reflexivity | reflexivity | reflexivity | exact Hnil].
  - vm_compute in Hu. injection Hu as <-. rewrite Hone. reflexivity.
Defined.

(** ** Placing an order for a known owner *)

Lemma createOrder_known_owner (e : Env) (req : OrderRequest) (w : World)
    (os : list Order) (us : list User) (u : User) :
  files w !! "orders.json" = Some (VOrders os) →
  files w !! "users.json" = Some (VUsers us) →
  find_user us (r_userId req) = Some u →
  let counter := bump (today e) (stored_counter w) in
  let order := new_order e req (order_code (c_counter counter)) in
  ∃ w',
    createOrder e req w = (Json 200 (BOrder order), w') ∧
    files w' =
      (if write_fails e "orders.json"
       then λ fs, fs else <["orders.json" := VOrders (os ++ [order])]>)
        ((if write_fails e "order-counter.json"
          then λ fs, fs else <["order-counter.json" := stringify_counter (stored_counter w) counter]>) (files w)) ∧
    dynamo w' = dynamo w ++ [{| p_table := ORDERS_TABLE e; p_item := order;
                                p_ok := negb (dynamo_fails e) |}] ∧
    outbox w' = outbox w ++ (if brevo_fails e then [] else [order_mail order u]) ∧
    console w' =
      (console (readFromJSON "order-counter.json" w).2 ++
       (if write_fails e "order-counter.json"
        then [ErrSaving "order-counter.json"] else []) ++
       (if write_fails e "orders.json" then [ErrSaving "orders.json"] else []) ++
       (if dynamo_fails e then [ErrDynamo (ORDERS_TABLE e)] else [])) ++
      [if brevo_fails e then ErrBrevo else EmailSent (u_email u)].
Proof.
  intros Hos Hus Hu counter order.
  destruct (createOrder_prefix e req w os Hos) as (w3 & Hrun & Hf & Hd & Hc & Ho).
  fold counter order in Hf, Hd.
  assert (files w3 !! "users.json" = Some (VUsers us)) as Hus3.
  { rewrite <- Hus. by eapply createOrder_prefix_other. }
  unfold createOrder, route, createOrder_handler. cbv zeta. rewrite Hrun.
  rewrite (js_bind_returns _ _ _ _ _ (readFromJSON_Some _ _ _ Hus3)).
  simpl users_array. unfold js_bind at 1, js_ret at 1. rewrite Hu.
  unfold js_bind, sendEmail, console_log, js_ret. fold counter order.
  destruct (brevo_fails e); simpl; eexists; (split; [reflexivity|]); simpl;
    rewrite ?app_nil_r, <- ?Ho, <- Hc; done.
Qed.



(** X12: when the write of [orders.json] is rejected, an order placed for a
    known owner is still answered 200 with the order, put to the mirror and
    mailed to the owner, although [orders.json] holds what it held before;
    the rejection is only on the console. *)
Theorem createOrder_unstored_success (e : Env) (req : OrderRequest) (w : World)
    (os : list Order) (us : list User) (u : User) :
  files w !! "orders.json" = Some (VOrders os) →
  files w !! "users.json" = Some (VUsers us) →
  find_user us (r_userId req) = Some u →
  write_fails e "orders.json" = true →
  ∃ order w',
    createOrder e req w = (Json 200 (BOrder order), w') ∧
    files w' !! "orders.json" = Some (VOrders os) ∧
    ErrSaving "orders.json" ∈ console w' ∧
    dynamo w' = dynamo w ++ [{| p_table := ORDERS_TABLE e; p_item := order;
                                p_ok := negb (dynamo_fails e) |}] ∧
    outbox w' = outbox w ++ (if brevo_fails e then [] else [order_mail order u]).
Proof.
  intros Hos Hus Hu Hw.
  destruct (createOrder_known_owner e req w os us u Hos Hus Hu)
    as (w' & Hrun & Hf & Hd & Ho & Hc).
  rewrite Hw in Hf, Hc.
  eexists _, w'. split; [exact Hrun|].
  split.
  { rewrite Hf. destruct (write_fails e "order-counter.json"); [done|].
    by rewrite lookup_insert_ne. }
  split; [|by split].
  rewrite Hc, !elem_of_app. left. right. right. left. by left.
Qed.

Lemma createOrder_unstored_success_witness :
  ∃ order w',
    createOrder env_readonly (request_of "u-asha") world0 = (Json 200 (BOrder order), w') ∧
    files w' !! "orders.json" = Some (VOrders []).
Proof.
  destruct (createOrder_unstored_success env_readonly (request_of "u-asha") world0
              [] [asha] asha)
    as (order & w' & Hrun & Hf & _); [reflexivity|reflexivity|reflexivity|reflexivity|].
  exists order, w'. split; [exact Hrun|exact Hf].
Defined.

Lemma selected_no_filter (o : Order) : selected no_filter o.
Proof. by repeat split. Qed.

(** X13: placing then listing.  After an order has been placed and stored for
    a known owner, the unfiltered listing answers that order first, with the
    owner's display fields, followed by the orders stored before in reverse
    order. *)
Theorem created_order_listed_first (e : Env) (req : OrderRequest) (w : World)
    (os : list Order) (us : list User) (u : User) :
  files w !! "orders.json" = Some (VOrders os) →
  files w !! "users.json" = Some (VUsers us) →
  find_user us (r_userId req) = Some u →
  write_fails e "orders.json" = false →
  ∃ order w' older,
    createOrder e req w = (Json 200 (BOrder order), w') ∧
    listOrders no_filter w' =
      (JsonOrders ({| l_order := order;
                      l_userName := or_default (u_name u) "Unknown";
                      l_userPhone := or_default (u_phone u) "N/A" |} :: older), w') ∧
    l_order <$> older = reverse os.
Proof.
  intros Hos Hus Hu Hw.
  destruct (createOrder_known_owner e req w os us u Hos Hus Hu)
    as (w' & Hrun & Hf & _).
  rewrite Hw in Hf.
  assert (files w' !! "users.json" = Some (VUsers us)) as Hus'.
  { rewrite Hf, lookup_insert_ne by done.
    destruct (write_fails e "order-counter.json"); [done|].
    by rewrite lookup_insert_ne. }
  eexists _, w', (reverse (enrich us <$> os)). split; [exact Hrun|]. split.
  - erewrite (listOrders_run no_filter w' _ us); [|by rewrite Hf, lookup_insert_eq|done].
    rewrite filter_all by apply selected_no_filter.
    rewrite fmap_app, reverse_app. simpl. do 3 f_equal.
    unfold enrich. simpl. by rewrite Hu.
  - rewrite <- fmap_reverse, <- list_fmap_compose.
    by rewrite (list_fmap_ext (l_order ∘ enrich us) id _), list_fmap_id.
Qed.

Lemma created_order_listed_first_witness :
  ∃ order w' older,
    createOrder env0 (request_of "u-asha")
      (world_of {| c_date := monday; c_counter := 1 |}
         [order_of "o-1" "CC-#1" "ready"]) = (Json 200 (BOrder order), w') ∧
    listOrders no_filter w' =
      (JsonOrders ({| l_order := order; l_userName := "Asha";
                      l_userPhone := "9000000001" |} :: older), w') ∧
    l_order <$> older = [order_of "o-1" "CC-#1" "ready"].
Proof.
  destruct (created_order_listed_first env0 (request_of "u-asha")
              (world_of {| c_date := monday; c_counter := 1 |}
                 [order_of "o-1" "CC-#1" "ready"])
              [order_of "o-1" "CC-#1" "ready"] [asha] asha)
    as (order & w' & older & Hrun & Hlist & Holder);
    [reflexivity|reflexivity|reflexivity|reflexivity|].
  exists order, w', older. split; [exact Hrun|]. split; [exact Hlist|exact Holder].
Defined.

(** ** Mail failures stay out of sight *)

Section MailBlind.
Context {A B : Type}.

Lemma mail_blind_ret (a : A) : mail_blind (js_ret a) (js_ret a).
Proof. intros w1 w2 H. by split. Qed.

Lemma mail_blind_throw (msg : string) : mail_blind (@throw A msg) (throw msg).
Proof. intros w1 w2 H. by split. Qed.

Lemma mail_blind_bind (m1 m2 : Js A) (k1 k2 : A → Js B) :
  mail_blind m1 m2 →
  (∀ a, mail_blind (k1 a) (k2 a)) →
  mail_blind (js_bind m1 k1) (js_bind m2 k2).
Proof.
  intros Hm Hk w1 w2 Hw. unfold js_bind.
  destruct (Hm w1 w2 Hw) as [Hout Hstore].
  destruct (m1 w1) as [[a1|msg1] w1'], (m2 w2) as [[a2|msg2] w2'];
    simpl in *; try discriminate.
  - injection Hout as ->. by apply Hk.
  - injection Hout as ->. by split.
Qed.
End MailBlind.

Lemma mail_blind_read (filename : string) :
  mail_blind (readFromJSON filename) (readFromJSON filename).
Proof.
  intros w1 w2 [Hf Hd]. unfold readFromJSON. rewrite Hf.
  destruct (files w2 !! filename); by split.
Qed.

Lemma mail_blind_save (e1 e2 : Env) (filename : string) (data : JsValue) :
  write_fails e1 filename = write_fails e2 filename →
  mail_blind (saveToJSON e1 filename data) (saveToJSON e2 filename data).
Proof.
  intros He w1 w2 [Hf Hd]. unfold saveToJSON. rewrite He.
  destruct (write_fails e2 filename); split; try done; split; simpl; congruence.
Qed.

Lemma mail_blind_dynamo (e1 e2 : Env) (tableName : string) (item : Order) :
  dynamo_fails e1 = dynamo_fails e2 →
  mail_blind (saveToDynamoDB e1 tableName item) (saveToDynamoDB e2 tableName item).
Proof.
  intros He w1 w2 [Hf Hd]. unfold saveToDynamoDB. rewrite He.
  destruct (dynamo_fails e2); split; try done; split; simpl; congruence.
Qed.

Lemma mail_blind_email (e1 e2 : Env) (to subject : string) (otp : option string) :
  mail_blind (sendEmail e1 to subject otp) (sendEmail e2 to subject otp).
Proof.
  intros w1 w2 [Hf Hd]. unfold sendEmail.
  by destruct (brevo_fails e1), (brevo_fails e2).
Qed.

Lemma mail_blind_orders_array (method : string) (v : JsValue) :
  mail_blind (orders_array method v) (orders_array method v).
Proof. destruct v; apply mail_blind_ret || apply mail_blind_throw. Qed.

Lemma mail_blind_users_array (method : string) (v : JsValue) :
  mail_blind (users_array method v) (users_array method v).
Proof. destruct v; apply mail_blind_ret || apply mail_blind_throw. Qed.

Ltac mail_blind_steps :=
  repeat first
    [ apply mail_blind_bind; [|intros ?]
    | apply mail_blind_read
    | apply mail_blind_save; reflexivity
    | apply mail_blind_dynamo; reflexivity
    | apply mail_blind_email
    | apply mail_blind_orders_array
    | apply mail_blind_users_array
    | apply mail_blind_ret
    | apply mail_blind_throw
    | match goal with
      | |- mail_blind (match ?x with _ => _ end) _ => destruct x
      | |- mail_blind (if ?x then _ else _) _ => destruct x
      end ].

Lemma mail_blind_createOrder (e : Env) (req : OrderRequest) :
  mail_blind (createOrder_handler (with_brevo_fails true e) req)
             (createOrder_handler (with_brevo_fails false e) req).
Proof.
  unfold createOrder_handler, generateOrderID. cbv zeta. mail_blind_steps.
Qed.

Lemma mail_blind_setStatus (e : Env) (id status : string) :
  mail_blind (setStatus_handler (with_brevo_fails true e) id status)
             (setStatus_handler (with_brevo_fails false e) id status).
Proof.
  unfold setStatus_handler, with_brevo_fails. cbv zeta.
  cbn [nowISO restamp o_userId o_otp]. mail_blind_steps.
Qed.

Lemma mail_blind_route (h1 h2 : Js Response) (w : World) :
  mail_blind h1 h2 →
  (route h1 w).1 = (route h2 w).1 ∧
  files (route h1 w).2 = files (route h2 w).2 ∧
  dynamo (route h1 w).2 = dynamo (route h2 w).2.
Proof.
  intros H. destruct (H w w) as [Hout [Hf Hd]]; [done|].
  unfold route. destruct (h1 w) as [[r1|m1] w1], (h2 w) as [[r2|m2] w2];
    simpl in *; try discriminate; by simplify_eq.
Qed.

(** X14: a mail that the mail service rejects is never surfaced.  Whether
    [sendTransacEmail] rejects or not, placing an order and changing a status
    give the same response and leave the same data directory and the same
    mirror. *)
Theorem mail_failure_not_surfaced (e : Env) (w : World) :
  (∀ req,
     (createOrder (with_brevo_fails true e) req w).1 =
       (createOrder (with_brevo_fails false e) req w).1 ∧
     files (createOrder (with_brevo_fails true e) req w).2 =
       files (createOrder (with_brevo_fails false e) req w).2 ∧
     dynamo (createOrder (with_brevo_fails true e) req w).2 =
       dynamo (createOrder (with_brevo_fails false e) req w).2) ∧
  (∀ id status,
     (setStatus (with_brevo_fails true e) id status w).1 =
       (setStatus (with_brevo_fails false e) id status w).1 ∧
     files (setStatus (with_brevo_fails true e) id status w).2 =
       files (setStatus (with_brevo_fails false e) id status w).2 ∧
     dynamo (setStatus (with_brevo_fails true e) id status w).2 =
       dynamo (setStatus (with_brevo_fails false e) id status w).2).
Proof.
  split.
  - intros req. apply mail_blind_route, mail_blind_createOrder.
  - intros id status. apply mail_blind_route, mail_blind_setStatus.
Qed.

(** ** Orders are never removed *)

Lemma same_but_status_refl (o : Order) : same_but_status o o.
Proof. by repeat split. Qed.

Lemma same_but_status_trans (o1 o2 o3 : Order) :
  same_but_status o1 o2 → same_but_status o2 o3 → same_but_status o1 o3.
Proof.
  unfold same_but_status. intros H12 H23.
  destruct_and!. repeat split; congruence.
Qed.

Lemma grown_refl (os : list Order) : grown os os.
Proof.
  split; [done|]. intros j o Hj. exists o. split; [done|apply same_but_status_refl].
Qed.

Lemma grown_trans (os1 os2 os3 : list Order) :
  grown os1 os2 → grown os2 os3 → grown os1 os3.
Proof.
  intros [Hl12 H12] [Hl23 H23]. split; [lia|].
  intros j o1 Hj. destruct (H12 j o1 Hj) as (o2 & Hj2 & Hs12).
  destruct (H23 j o2 Hj2) as (o3 & Hj3 & Hs23).
  exists o3. split; [done|]. by eapply same_but_status_trans.
Qed.

Lemma grown_app (os new : list Order) : grown os (os ++ new).
Proof.
  split; [rewrite length_app; lia|].
  intros j o Hj. exists o. split; [|apply same_but_status_refl].
  by apply lookup_app_l_Some.
Qed.

Lemma grown_restamp (os : list Order) (i : nat) (o : Order) (status now : string) :
  os !! i = Some o → grown os (<[i := restamp status now o]> os).
Proof.
  intros Hi. split; [by rewrite length_insert|].
  intros j o' Hj. destruct (decide (i = j)) as [<-|Hne].
  - rewrite Hi in Hj. injection Hj as <-.
    exists (restamp status now o). split; [|apply restamp_same].
    apply list_lookup_insert_eq. by eapply lookup_lt_Some.
  - exists o'. split; [|apply same_but_status_refl].
    by rewrite list_lookup_insert_ne.
Qed.

Lemma listOrders_files (q : OrderQuery) (w : World) :
  files (listOrders q w).2 = files w.
Proof.
  pose proof (read_only_listOrders q w) as (Hf & _).
  unfold listOrders, route. by destruct (listOrders_handler q w) as [[?|?] ?].
Qed.

Lemma handle_grown (r : Request) (w : World) (os : list Order) :
  files w !! "orders.json" = Some (VOrders os) →
  ∃ os', files (handle r w).2 !! "orders.json" = Some (VOrders os') ∧ grown os os'.
Proof.
  intros Hos. destruct r as [e req|q|e id status|e id]; simpl.
  - rewrite (createOrder_files e req w os Hos).
    destruct (write_fails e "orders.json").
    + exists os. split; [|apply grown_refl].
      destruct (write_fails e "order-counter.json"); [done|].
      by rewrite lookup_insert_ne.
    + eexists. split; [apply lookup_insert_eq|apply grown_app].
  - rewrite listOrders_files. exists os. split; [done|apply grown_refl].
  - destruct (setStatus_orders e id status w os Hos) as [H|(i & o & Hfind & H)].
    + exists os. split; [done|apply grown_refl].
    + eexists. split; [exact H|]. apply grown_restamp.
      by apply find_order_id in Hfind as [? _].
  - destruct (cancelOrder_orders e id w os Hos) as [H|(i & o & Hfind & _ & H)].
    + exists os. split; [done|apply grown_refl].
    + eexists. split; [exact H|]. apply grown_restamp.
      by apply find_order_id in Hfind as [? _].
Qed.

(** X15: no sequence of requests to the four order routes removes, moves or
    rewrites a stored order.  Whatever the requests and whatever fails on the
    way, [orders.json] stays a collection at least as long as before, and
    each order stored before is still at its position with the same id, code,
    owner, admin, items, amount, payment method, type, scheduled time, pickup
    code, creation time and pickup place: only [status] and [updatedAt]
    may have changed. *)
Theorem orders_never_removed (requests : list Request) (w : World) (os : list Order) :
  files w !! "orders.json" = Some (VOrders os) →
  ∃ os',
    files (serve requests w) !! "orders.json" = Some (VOrders os') ∧
    (length os ≤ length os')%nat ∧
    ∀ j o, os !! j = Some o → ∃ o', os' !! j = Some o' ∧ same_but_status o o'.
Proof.
  revert w os. induction requests as [|r requests IH]; intros w os Hos.
  { exists os. split; [done|]. apply grown_refl. }
  destruct (handle_grown r w os Hos) as (os1 & Hos1 & Hg1).
  destruct (IH (handle r w).2 os1 Hos1) as (os' & Hos' & Hg).
  exists os'. split; [exact Hos'|].
  by apply (grown_trans os os1 os').
Qed.

Lemma orders_never_removed_witness :
  ∃ os',
    files (serve [PatchCancel env0 "o-1"; PostOrder env0 (request_of "u-ghost");
                  PatchStatus env0 "o-1" "delivered"; GetOrders no_filter]
             (world_of {| c_date := monday; c_counter := 1 |}
                [order_of "o-1" "CC-#1" "confirmed"])) !! "orders.json" =
      Some (VOrders os') ∧
    (1 ≤ length os')%nat ∧
    ∃ o', os' !! 0%nat = Some o' ∧
          same_but_status (order_of "o-1" "CC-#1" "confirmed") o'.
Proof.
  destruct (orders_never_removed
              [PatchCancel env0 "o-1"; PostOrder env0 (request_of "u-ghost");
               PatchStatus env0 "o-1" "delivered"; GetOrders no_filter]
              (world_of {| c_date := monday; c_counter := 1 |}
                 [order_of "o-1" "CC-#1" "confirmed"])
              [order_of "o-1" "CC-#1" "confirmed"])
    as (os' & Hos' & Hlen & Hkeep); [reflexivity|].
  exists os'. split; [exact Hos'|]. split; [exact Hlen|].
  apply (Hkeep 0%nat). reflexivity.
Defined.

(** ** Revenue and the order routes *)

Lemma filter_insert_out {A} (P : A → Prop) `{!∀ x, Decision (P x)}
    (l : list A) (i : nat) (x x' : A) :
  l !! i = Some x → ¬ P x → ¬ P x' → filter P (<[i := x']> l) = filter P l.
Proof.
  revert i. induction l as [|y l IH]; intros i Hi Hx Hx'; [done|].
  destruct i as [|i]; simpl in *.
  - injection Hi as ->. by rewrite !filter_cons_False.
  - rewrite !filter_cons, (IH i Hi Hx Hx'). done.
Qed.

Lemma delivered_filter (adminId : string) (os : list Order) :
  filter (λ o, o_status o = "delivered") (adminOrders adminId os) =
  filter (λ o, o_status o = "delivered" ∧ o_adminId o = adminId) os.
Proof. unfold adminOrders. by rewrite list_filter_filter. Qed.

Lemma totalRevenue_not_delivered_app (adminId : string) (os : list Order) (o : Order) :
  o_status o ≠ "delivered" →
  totalRevenue adminId (os ++ [o]) = totalRevenue adminId os.
Proof.
  intros Ho. unfold totalRevenue. rewrite !delivered_filter, filter_app.
  rewrite filter_cons_False by tauto. by rewrite filter_nil, app_nil_r.
Qed.

Lemma totalRevenue_not_delivered_insert (adminId : string) (os : list Order)
    (i : nat) (o o' : Order) :
  os !! i = Some o → o_status o ≠ "delivered" → o_status o' ≠ "delivered" →
  totalRevenue adminId (<[i := o']> os) = totalRevenue adminId os.
Proof.
  intros Hi Ho Ho'. unfold totalRevenue. rewrite !delivered_filter.
  rewrite (filter_insert_out _ os i o o' Hi); [done|tauto|tauto].
Qed.

Lemma exact_sum_nonneg (l : list Order) :
  Forall (λ o, 0 ≤ o_totalAmount o)%Z l → (0 ≤ exact_sum l)%Z.
Proof. induction 1; simpl; lia. Qed.

(** Where the amounts are whole, not negative, and add up to no more than
    2^53, the sum in doubles is the exact sum. *)
Lemma foldl_js_add_exact (a : Z) (l : list Order) :
  (0 ≤ a)%Z → Forall (λ o, 0 ≤ o_totalAmount o)%Z l →
  (a + exact_sum l ≤ 2 ^ 53)%Z →
  foldl (λ sum o, js_add sum (o_totalAmount o)) a l = a + exact_sum l.
Proof.
  intros Ha Hl. revert a Ha. induction Hl as [|o l Ho Hl IH]; intros a Ha Hsum; simpl in *.
  { lia. }
  pose proof (exact_sum_nonneg l Hl) as Hnn.
  rewrite js_add_exact by lia. rewrite IH by lia. lia.
Qed.

Lemma exact_sum_filter (P : Order → Prop) `{!∀ o, Decision (P o)} (l : list Order) :
  Forall (λ o, 0 ≤ o_totalAmount o)%Z l →
  (exact_sum (filter P l) ≤ exact_sum l)%Z.
Proof.
  induction 1 as [|o l Ho Hl IH]; [done|].
  rewrite filter_cons. destruct (decide (P o)); simpl; lia.
Qed.

Lemma exact_sum_bound (limit : Z) (l : list Order) :
  Forall (λ o, o_totalAmount o ≤ limit)%Z l →
  (exact_sum l ≤ Z.of_nat (length l) * limit)%Z.
Proof. induction 1; simpl length; simpl exact_sum; lia. Qed.

Lemma totalRevenue_exact (adminId : string) (os : list Order) (limit : Z) :
  Forall (λ o, 0 ≤ o_totalAmount o ≤ limit)%Z os →
  (Z.of_nat (length os) * limit ≤ 2 ^ 53)%Z →
  totalRevenue adminId os = exact_revenue adminId os.
Proof.
  intros Hos Hlen. unfold totalRevenue, exact_revenue.
  assert (Forall (λ o, 0 ≤ o_totalAmount o)%Z os) as Hnn
    by (eapply Forall_impl; [exact Hos|]; simpl; lia).
  assert (Forall (λ o, o_totalAmount o ≤ limit)%Z os) as Hle
    by (eapply Forall_impl; [exact Hos|]; simpl; lia).
  rewrite delivered_filter.
  pose proof (exact_sum_filter
                (λ o, o_status o = "delivered" ∧ o_adminId o = adminId) os Hnn).
  pose proof (exact_sum_bound limit os Hle).
  rewrite foldl_js_add_exact; [lia|lia| |lia].
  apply Forall_forall. intros o [_ Ho]%list_elem_of_filter.
  by apply (proj1 (Forall_forall _ _) Hnn).
Qed.

Lemma exact_revenue_cons (adminId : string) (o : Order) (os : list Order) :
  exact_revenue adminId (o :: os) = counted adminId o + exact_revenue adminId os.
Proof.
  unfold exact_revenue, counted. rewrite !delivered_filter.
  case_bool_decide as H.
  - by rewrite filter_cons_True by done.
  - rewrite filter_cons_False by done. lia.
Qed.

Lemma exact_revenue_insert (adminId : string) (os : list Order) (i : nat) (o o' : Order) :
  os !! i = Some o →
  exact_revenue adminId (<[i := o']> os) =
  exact_revenue adminId os - counted adminId o + counted adminId o'.
Proof.
  revert i. induction os as [|o0 os IH]; intros i Hi; [done|].
  destruct i as [|i]; simpl in *.
  - injection Hi as ->. rewrite !exact_revenue_cons. lia.
  - rewrite !exact_revenue_cons, (IH i Hi). lia.
Qed.

Lemma counted_not_delivered (adminId : string) (o : Order) :
  o_status o ≠ "delivered" → counted adminId o = 0.
Proof. intros H. unfold counted. rewrite bool_decide_eq_false_2; [done|]. tauto. Qed.

(** X16: only the status route moves revenue.  Placing an order, cancelling
    one and listing leave the delivered revenue of every admin, as the
    analytics route sums it, exactly as it was: a new order is pending, and
    an order that can be cancelled is not delivered. *)
Theorem revenue_kept_by_create_cancel_list (r : Request) (w : World)
    (os : list Order) (adminId : string) :
  (∀ e id status, r ≠ PatchStatus e id status) →
  files w !! "orders.json" = Some (VOrders os) →
  ∃ os',
    files (handle r w).2 !! "orders.json" = Some (VOrders os') ∧
    totalRevenue adminId os' = totalRevenue adminId os.
Proof.
  intros Hr Hos. destruct r as [e req|q|e id status|e id]; simpl.
  - rewrite (createOrder_files e req w os Hos).
    destruct (write_fails e "orders.json").
    + exists os. split; [|done].
      destruct (write_fails e "order-counter.json"); [done|].
      by rewrite lookup_insert_ne.
    + eexists. split; [apply lookup_insert_eq|].
      by apply totalRevenue_not_delivered_app.
  - rewrite listOrders_files. by exists os.
  - by destruct (Hr e id status).
  - destruct (cancelOrder_orders e id w os Hos) as [H|(i & o & Hfind & Hc & H)].
    + by exists os.
    + eexists. split; [exact H|].
      apply find_order_id in Hfind as [Hi _].
      apply (totalRevenue_not_delivered_insert adminId os i o _ Hi); [|done].
      apply cancellable_iff in Hc as [-> | ->]; done.
Qed.

Lemma revenue_kept_by_create_cancel_list_witness :
  ∃ os',
    files (handle (PatchCancel env0 "o-2")
             (world_of {| c_date := monday; c_counter := 2 |}
                [order_of "o-1" "CC-#1" "delivered"; order_of "o-2" "CC-#2" "pending"])).2
      !! "orders.json" = Some (VOrders os') ∧
    totalRevenue "adm-1" os' = 100.
Proof.
  destruct (revenue_kept_by_create_cancel_list (PatchCancel env0 "o-2")
              (world_of {| c_date := monday; c_counter := 2 |}
                 [order_of "o-1" "CC-#1" "delivered"; order_of "o-2" "CC-#2" "pending"])
              [order_of "o-1" "CC-#1" "delivered"; order_of "o-2" "CC-#2" "pending"]
              "adm-1")
    as (os' & Hos' & Hrev); [discriminate|reflexivity|].
  exists os'. split; [exact Hos'|]. rewrite Hrev. reflexivity.
Defined.

(** X17: what the status route does to revenue, where the amounts are
    whole numbers between 0 and a limit that the stored orders together cannot
    carry past 2^53 (so that the analytics route's sum of doubles is exact).
    When the write succeeds, a status request on an existing order changes the
    revenue of the order's admin by the order's amount and in no other way: up
    when the order becomes delivered, down when a delivered order is given
    another status, not at all otherwise; the revenue of every other admin is
    unchanged. *)
Theorem revenue_follows_status (e : Env) (id status : string) (w : World)
    (os : list Order) (i : nat) (o : Order) (limit : Z) :
  files w !! "orders.json" = Some (VOrders os) →
  find_order os id = Some (i, o) →
  write_fails e "orders.json" = false →
  (∀ o', o' ∈ os → (0 ≤ o_totalAmount o' ≤ limit)%Z) →
  (Z.of_nat (length os) * limit ≤ 2 ^ 53)%Z →
  ∃ os',
    files (setStatus e id status w).2 !! "orders.json" = Some (VOrders os') ∧
    (∀ adminId, adminId ≠ o_adminId o →
       totalRevenue adminId os' = totalRevenue adminId os) ∧
    (o_status o ≠ "delivered" → status = "delivered" →
       totalRevenue (o_adminId o) os' = totalRevenue (o_adminId o) os + o_totalAmount o) ∧
    (o_status o = "delivered" → status ≠ "delivered" →
       totalRevenue (o_adminId o) os' = totalRevenue (o_adminId o) os - o_totalAmount o) ∧
    ((o_status o = "delivered" ↔ status = "delivered") →
       totalRevenue (o_adminId o) os' = totalRevenue (o_adminId o) os).
Proof.
  intros Hos Hfind Hw Hamounts Hlimit.
  destruct (find_order_id _ _ _ _ Hfind) as [Hi _].
  assert (files (setStatus e id status w).2 !! "orders.json" =
          Some (VOrders (<[i := restamp status (nowISO e) o]> os))) as Hos'.
  { js_unfold. rewrite Hos. simpl. rewrite Hfind, Hw.
    repeat (simpl; destruct_innermost_goal); simpl; by rewrite lookup_insert_eq. }
  eexists. split; [exact Hos'|].
  apply Forall_forall in Hamounts.
  assert (∀ a, totalRevenue a os = exact_revenue a os) as Hexact
    by (intros a; by apply (totalRevenue_exact a os limit)).
  assert (∀ a, totalRevenue a (<[i := restamp status (nowISO e) o]> os) =
               exact_revenue a os - counted a o + counted a (restamp status (nowISO e) o))
    as Hrev.
  { intros a. rewrite (totalRevenue_exact a _ limit).
    - by apply exact_revenue_insert.
    - apply Forall_insert; [done|]. simpl.
      by apply (Forall_lookup_1 _ _ _ _ Hamounts Hi).
    - by rewrite length_insert. }
  split; [|split; [|split]].
  - intros a Ha. rewrite Hrev, Hexact. unfold counted. simpl.
    rewrite !bool_decide_eq_false_2 by (intros [_ ?]; by apply Ha). lia.
  - intros Hnd ->. rewrite Hrev, Hexact, (counted_not_delivered _ o Hnd).
    unfold counted. simpl. rewrite bool_decide_eq_true_2 by done. lia.
  - intros Hd Hns.
    rewrite Hrev, Hexact, (counted_not_delivered _ (restamp _ _ _)) by done.
    unfold counted. rewrite bool_decide_eq_true_2 by done. lia.
  - intros Hiff. rewrite Hrev, Hexact. unfold counted. simpl.
    destruct (decide (status = "delivered")) as [Hs|Hs].
    + rewrite !bool_decide_eq_true_2; [lia|done|]. split; [by apply Hiff|done].
    + rewrite !bool_decide_eq_false_2; [lia|tauto|]. intros [Hd _]. by apply Hs, Hiff.
Qed.

Lemma revenue_follows_status_witness :
  ∃ os',
    files (setStatus env0 "o-2" "delivered"
             (world_of {| c_date := monday; c_counter := 2 |}
                [order_of "o-1" "CC-#1" "delivered"; order_of "o-2" "CC-#2" "ready"])).2
      !! "orders.json" = Some (VOrders os') ∧
    totalRevenue "adm-1" os' = 200.
Proof.
  destruct (revenue_follows_status env0 "o-2" "delivered"
              (world_of {| c_date := monday; c_counter := 2 |}
                 [order_of "o-1" "CC-#1" "delivered"; order_of "o-2" "CC-#2" "ready"])
              [order_of "o-1" "CC-#1" "delivered"; order_of "o-2" "CC-#2" "ready"]
              1%nat (order_of "o-2" "CC-#2" "ready") 100)
    as (os' & Hos' & _ & Hup & _);
    [ reflexivity | reflexivity | reflexivity
    | intros o' Ho'; apply elem_of_cons in Ho' as [->|Ho'];
      [simpl; lia | apply list_elem_of_singleton in Ho' as ->; simpl; lia]
    | simpl; lia | ].
  exists os'. split; [exact Hos'|].
  assert (o_status (order_of "o-2" "CC-#2" "ready") ≠ "delivered") as Hnd by discriminate.
  specialize (Hup Hnd eq_refl). cbn [o_adminId order_of o_totalAmount] in Hup.
  rewrite Hup. reflexivity.
Defined.

(** ** Every call returns *)





(** ** A code is consumed before the order is stored *)



(** ** What the status route never touches *)

(** X20: the status route writes no file but [orders.json]; and a request
    for an id that no stored order has is answered 404 with the data
    directory, the mirror and the outbox exactly as before. *)
Theorem setStatus_touches_only_orders (e : Env) (id status : string) (w : World) :
  (∀ other, other ≠ "orders.json" →
            files (setStatus e id status w).2 !! other = files w !! other) ∧
  (status_code (setStatus e id status w).1 = 404 →
   files (setStatus e id status w).2 = files w ∧
   dynamo (setStatus e id status w).2 = dynamo w ∧
   outbox (setStatus e id status w).2 = outbox w).
Proof.
  js_unfold.
  repeat (simpl; destruct_innermost_goal); simpl;
    (split; [intros; by rewrite ?lookup_insert_ne by done|]);
    intros; done.
Qed.

(** ** Who writes which file *)

Lemma setStatus_other_files (e : Env) (id status : string) (w : World) (other : string) :
  other ≠ "orders.json" →
  files (setStatus e id status w).2 !! other = files w !! other.
Proof.
  intros Hne. js_unfold.
  repeat (simpl; destruct_innermost_goal); simpl;
    by rewrite ?lookup_insert_ne by done.
Qed.

Lemma cancelOrder_other_files (e : Env) (id : string) (w : World) (other : string) :
  other ≠ "orders.json" →
  files (cancelOrder e id w).2 !! other = files w !! other.
Proof.
  intros Hne. js_unfold.
  repeat (simpl; destruct_innermost_goal); simpl;
    by rewrite ?lookup_insert_ne by done.
Qed.

Lemma createOrder_other_files (e : Env) (req : OrderRequest) (w : World) (other : string) :
  other ≠ "orders.json" → other ≠ "order-counter.json" →
  files (createOrder e req w).2 !! other = files w !! other.
Proof.
  intros Hne1 Hne2.
  unfold createOrder, route, createOrder_handler, generateOrderID. cbv zeta.
  js_unfold.
  repeat (simpl; destruct_innermost_goal); simpl;
    by rewrite ?lookup_insert_ne by done.
Qed.

(** X21: the order routes never write [users.json] or any file other than
    [orders.json] and [order-counter.json]; and the counter file is written
    by placing an order only: a sequence of list, status and cancel requests
    leaves it exactly as it was. *)
Theorem counter_written_by_orders_only (requests : list Request) (w : World) :
  (∀ other, other ≠ "orders.json" → other ≠ "order-counter.json" →
            files (serve requests w) !! other = files w !! other) ∧
  ((∀ e req, PostOrder e req ∉ requests) →
   files (serve requests w) !! "order-counter.json" =
   files w !! "order-counter.json").
Proof.
  assert (∀ r w other,
            other ≠ "orders.json" →
            (other = "order-counter.json" → ∀ e req, r ≠ PostOrder e req) →
            files (handle r w).2 !! other = files w !! other) as Hstep.
  { intros r w0 other Hne Hc. destruct r as [e req|q|e id status|e id]; simpl.
    - destruct (decide (other = "order-counter.json")) as [Heq|Hne2].
      + by destruct (Hc Heq e req).
      + by apply createOrder_other_files.
    - by rewrite listOrders_files.
    - by apply setStatus_other_files.
    - by apply cancelOrder_other_files. }
  split.
  - intros other Hne1 Hne2. revert w.
    induction requests as [|r requests IH]; intros w; [done|].
    simpl. rewrite IH. apply Hstep; [done|]. intros Heq. by destruct Hne2.
  - revert w. induction requests as [|r requests IH]; intros w Hno; [done|].
    simpl. rewrite IH.
    + apply Hstep; [done|]. intros _ e req ->. apply (Hno e req). left.
    + intros e req Hin. apply (Hno e req). by right.
Qed.

(** ** Counting the orders of an admin *)

Lemma totalOrders_cons (adminId : string) (o : Order) (os : list Order) :
  totalOrders adminId (o :: os) =
    ((if bool_decide (o_adminId o = adminId) then 1 else 0) + totalOrders adminId os)%nat.
Proof.
  unfold totalOrders, adminOrders. case_bool_decide.
  - by rewrite filter_cons_True.
  - by rewrite filter_cons_False.
Qed.

Lemma totalOrders_app (adminId : string) (os new : list Order) :
  totalOrders adminId (os ++ new) =
    (totalOrders adminId os + totalOrders adminId new)%nat.
Proof.
  unfold totalOrders, adminOrders. by rewrite filter_app, length_app.
Qed.

Lemma totalOrders_restamp (adminId : string) (os : list Order) (i : nat) (o : Order)
    (status now : string) :
  os !! i = Some o →
  totalOrders adminId (<[i := restamp status now o]> os) = totalOrders adminId os.
Proof.
  revert i. induction os as [|o0 os IH]; intros i Hi; [done|].
  destruct i as [|i]; simpl in *.
  - injection Hi as ->. by rewrite !totalOrders_cons.
  - by rewrite !totalOrders_cons, (IH i Hi).
Qed.

(** X22: the order count of the analytics route counts orders of every
    status.  A status change or a cancellation never changes the count of any
    admin, and neither does a listing; an order that is placed and stored
    adds exactly one to the count of the admin named in the request and
    nothing to the others. *)
Theorem totalOrders_counts_every_status (r : Request) (w : World)
    (os : list Order) (adminId : string) :
  files w !! "orders.json" = Some (VOrders os) →
  ∃ os',
    files (handle r w).2 !! "orders.json" = Some (VOrders os') ∧
    totalOrders adminId os' =
      match r with
      | PostOrder e req =>
          if bool_decide (write_fails e "orders.json" = false ∧ r_adminId req = adminId)
          then S (totalOrders adminId os) else totalOrders adminId os
      | _ => totalOrders adminId os
      end.
Proof.
  intros Hos. destruct r as [e req|q|e id status|e id]; simpl.
  - rewrite (createOrder_files e req w os Hos).
    destruct (write_fails e "orders.json") eqn:Hw.
    + exists os. split.
      * destruct (write_fails e "order-counter.json"); [done|].
        by rewrite lookup_insert_ne.
      * rewrite bool_decide_eq_false_2; [done|]. by intros [? _].
    + eexists. split; [apply lookup_insert_eq|].
      rewrite totalOrders_app, totalOrders_cons. simpl.
      unfold totalOrders at 2. simpl.
      case_bool_decide as Ha.
      * rewrite bool_decide_eq_true_2 by done. lia.
      * rewrite bool_decide_eq_false_2; [lia|]. by intros [_ ?].
  - rewrite listOrders_files. by exists os.
  - destruct (setStatus_orders e id status w os Hos) as [H|(i & o & Hfind & H)].
    + by exists os.
    + eexists. split; [exact H|]. apply totalOrders_restamp.
      by apply find_order_id in Hfind as [? _].
  - destruct (cancelOrder_orders e id w os Hos) as [H|(i & o & Hfind & _ & H)].
    + by exists os.
    + eexists. split; [exact H|]. apply totalOrders_restamp.
      by apply find_order_id in Hfind as [? _].
Qed.

Lemma totalOrders_counts_every_status_witness :
  ∃ os',
    files (handle (PatchCancel env0 "o-1")
             (world_of {| c_date := monday; c_counter := 1 |}
                [order_of "o-1" "CC-#1" "pending"])).2 !! "orders.json" =
      Some (VOrders os') ∧
    totalOrders "adm-1" os' = 1%nat.
Proof.
  destruct (totalOrders_counts_every_status (PatchCancel env0 "o-1")
              (world_of {| c_date := monday; c_counter := 1 |}
                 [order_of "o-1" "CC-#1" "pending"])
              [order_of "o-1" "CC-#1" "pending"] "adm-1")
    as (os' & Hos' & Hcount); [reflexivity|].
  exists os'. split; [exact Hos'|]. rewrite Hcount. reflexivity.
Defined.

(** ** Refusals at concrete requests *)

Lemma cancelOrder_refusal_changes_nothing_witness :
  files (cancelOrder env0 "o-1"
           (world_of {| c_date := monday; c_counter := 1 |}
              [order_of "o-1" "CC-#1" "ready"])).2 =
    files (world_of {| c_date := monday; c_counter := 1 |}
             [order_of "o-1" "CC-#1" "ready"]) ∧
  dynamo (cancelOrder env0 "o-1"
            (world_of {| c_date := monday; c_counter := 1 |}
               [order_of "o-1" "CC-#1" "ready"])).2 = [].
Proof.
  destruct (cancelOrder_refusal_changes_nothing env0 "o-1"
              (world_of {| c_date := monday; c_counter := 1 |}
                 [order_of "o-1" "CC-#1" "ready"])) as (_ & _ & Hrefused).
  apply Hrefused. vm_compute. discriminate.
Defined.

Lemma setStatus_touches_only_orders_witness :
  files (setStatus env0 "o-9" "ready"
           (world_of {| c_date := monday; c_counter := 1 |}
              [order_of "o-1" "CC-#1" "pending"])).2 =
    files (world_of {| c_date := monday; c_counter := 1 |}
             [order_of "o-1" "CC-#1" "pending"]) ∧
  dynamo (setStatus env0 "o-9" "ready"
            (world_of {| c_date := monday; c_counter := 1 |}
               [order_of "o-1" "CC-#1" "pending"])).2 = [] ∧
  outbox (setStatus env0 "o-9" "ready"
            (world_of {| c_date := monday; c_counter := 1 |}
               [order_of "o-1" "CC-#1" "pending"])).2 = [].
Proof.
  destruct (setStatus_touches_only_orders env0 "o-9" "ready"
              (world_of {| c_date := monday; c_counter := 1 |}
                 [order_of "o-1" "CC-#1" "pending"])) as (_ & Hmissing).
  apply Hmissing. vm_compute. reflexivity.
Defined.

Lemma counter_written_by_orders_only_witness :
  files (serve [PatchStatus env0 "o-1" "ready"; PatchCancel env0 "o-1";
                GetOrders no_filter]
           (world_of {| c_date := monday; c_counter := 1 |}
              [order_of "o-1" "CC-#1" "pending"])) !! "order-counter.json" =
    Some (VCounter {| c_date := monday; c_counter := 1 |}).
Proof.
  destruct (counter_written_by_orders_only
              [PatchStatus env0 "o-1" "ready"; PatchCancel env0 "o-1";
               GetOrders no_filter]
              (world_of {| c_date := monday; c_counter := 1 |}
                 [order_of "o-1" "CC-#1" "pending"])) as (_ & Hcounter).
  rewrite Hcounter; [reflexivity|].
  intros e req Hin. repeat (apply elem_of_cons in Hin as [Hin|Hin]; [discriminate|]).
  by apply elem_of_nil in Hin.
Defined.
